(** * Ring unlock server: token store, device resolution, unlock orchestration

    A shallow embedding of [app.py] (the Flask server that unlocks a Ring
    intercom) and the properties of its session and device-resolution core.

    Conventions of the embedding:
    - a Python [str] is a Rocq [string] (its UTF-8 bytes); [.encode()] is the
      identity on that representation, and [str.lower()] is modelled on the
      ASCII letters, every other byte being left as it is;
    - [None] returned where a JSON value is expected is [JNull];
    - a Python function with effects is a computation in the monad [M], which
      threads the process globals, the token file, standard output and the
      log of calls made to the vendor client, and which can raise;
    - only exceptions deriving from [Exception] are modelled;
    - a write of the token file that fails raises either before the file
      is opened, the file being as it was, or after [open(mode='w')] emptied
      it, the file then holding the part of the text that reached it; a
      token refresh the vendor client makes on its own during a call is not
      modelled;
    - [json], [base64] and the [ring_doorbell] client are external to the
      repository: the first two are the methods of the class [PyLib], the
      last one is a record of outcomes of its calls, [provider]. *)

From Stdlib Require Import String Ascii List Bool Arith ZArith Lia.
From Stdlib Require Import DecimalString.
Import ListNotations.
Local Open Scope nat_scope.
Local Open Scope list_scope.
Local Open Scope string_scope.

(** ** Python strings *)

Module PyStr.

(** [c.lower()] for one byte. *)
Definition lower_ascii (c : ascii) : ascii :=
  let n := nat_of_ascii c in
  if Nat.leb 65 n && Nat.leb n 90 then ascii_of_nat (n + 32) else c.

(** [s.lower()], on the ASCII letters: a letter outside ASCII, which
    Python lowercases too, is left as it is. *)
Fixpoint lower (s : string) : string :=
  match s with
  | EmptyString => EmptyString
  | String c s' => String (lower_ascii c) (lower s')
  end.

(** [needle in hay] *)
Fixpoint contains (needle hay : string) : bool :=
  if String.prefix needle hay then true
  else match hay with
       | EmptyString => false
       | String _ hay' => contains needle hay'
       end.

(** [bool(s)]: a string is true when it is not empty. *)
Definition nonempty (s : string) : bool :=
  match s with EmptyString => false | String _ _ => true end.

(** [c * n] *)
Fixpoint replicate (n : nat) (c : ascii) : string :=
  match n with
  | O => EmptyString
  | S n' => String c (replicate n' c)
  end.

Definition newline : string := String (ascii_of_nat 10) EmptyString.

Definition hex_digit (n : nat) : ascii :=
  ascii_of_nat (if Nat.ltb n 10 then 48 + n else 87 + n).

(** One character of [repr(s)] between quotes [q]. A byte outside ASCII is
    copied, where Python escapes the characters that do not print. *)
Definition repr_char (q c : ascii) : string :=
  let n := nat_of_ascii c in
  if Ascii.eqb c q then String "\" (String c EmptyString)
  else if Ascii.eqb c "\" then "\\"
  else if Nat.eqb n 10 then "\n"
  else if Nat.eqb n 13 then "\r"
  else if Nat.eqb n 9 then "\t"
  else if Nat.ltb n 32 || Nat.eqb n 127 then
    String "\" (String "x" (String (hex_digit (n / 16))
                           (String (hex_digit (n mod 16)) EmptyString)))
  else String c EmptyString.

Fixpoint repr_body (q : ascii) (s : string) : string :=
  match s with
  | EmptyString => EmptyString
  | String c s' => repr_char q c ++ repr_body q s'
  end.

Fixpoint mem_char (c : ascii) (s : string) : bool :=
  match s with
  | EmptyString => false
  | String c' s' => Ascii.eqb c c' || mem_char c s'
  end.

Definition dquote : ascii := ascii_of_nat 34.

(** [repr(s)]: single quotes, unless the string holds a single quote and
    no double quote. *)
Definition repr (s : string) : string :=
  let q : ascii :=
    if mem_char "'" s && negb (mem_char dquote s) then dquote else "'"%char in
  String q (repr_body q s ++ String q EmptyString).

Fixpoint join (sep : string) (l : list string) : string :=
  match l with
  | [] => EmptyString
  | [x] => x
  | x :: l' => x ++ sep ++ join sep l'
  end.

(** [str(l)] for a list of strings [l], as an f-string prints it. *)
Definition repr_list (l : list string) : string :=
  "[" ++ join ", " (map repr l) ++ "]".

End PyStr.

(** ** Values, exceptions and the external libraries *)

(** What [json.loads] returns and [json.dumps] takes. Floats are left out. *)
#[local] Unset Elimination Schemes.
Inductive json : Type :=
| JNull
| JBool (b : bool)
| JInt (z : Z)
| JStr (s : string)
| JList (l : list json)
| JDict (items : list (string * json)).
#[local] Set Elimination Schemes.

(** [bool(v)] *)
Definition truthy (v : json) : bool :=
  match v with
  | JNull => false
  | JBool b => b
  | JInt z => negb (Z.eqb z 0)
  | JStr s => PyStr.nonempty s
  | JList l => match l with [] => false | _ :: _ => true end
  | JDict items => match items with [] => false | _ :: _ => true end
  end.

(** The exception classes the source tells apart; every other subclass of
    [Exception] is [OtherException]. *)
Inductive exn_class : Type :=
| AuthenticationError
| Requires2FAError
| AttributeError
| OtherException.

Record exn : Type := Exn { exn_cls : exn_class; exn_msg : string }.

(** [str(e)] *)
Definition str_exn (e : exn) : string := exn_msg e.

Definition is_AuthenticationError (e : exn) : bool :=
  match exn_cls e with AuthenticationError => true | _ => false end.

(** The outcome of a call: a value or a raised exception. *)
Inductive res (A : Type) : Type :=
| Ret (a : A)
| Raise (e : exn).
Arguments Ret {A} a.
Arguments Raise {A} e.

(** [json] and [base64] of the Python library. [b64encode] stands for
    [base64.b64encode(x).decode()], whose output is ASCII. *)
Class PyLib : Type := {
  json_dumps : json -> string;
  json_loads : string -> res json;
  b64encode : string -> string;
  b64decode : string -> res string;
  bytes_decode : string -> res string
}.

(** ** Devices of the vendor client *)

(** A device object: its class, and the attributes the source probes with
    [hasattr]. *)
Record device : Type := Device {
  cls_module : string;
  cls_name : string;
  family : option string;
  name : option string
}.

(** [str(type(device))] *)
Definition str_type (d : device) : string :=
  "<class '" ++ cls_module d ++ "." ++ cls_name d ++ "'>".

(** The object [ring.devices()] returns; an attribute it does not have is
    [None]. *)
Record RingDevices : Type := {
  other : option (list device);
  doorbots : option (list device);
  stickup_cams : option (list device);
  chimes : option (list device);
  video_doorbells : option (list device);
  devices_combined : option (list device)
}.

(** The vendor client, by the outcome of each of its calls. *)
Record provider : Type := {
  fetch_token_result : string -> string -> option string -> res json;
  create_session_result : json -> res unit;
  update_data_result : json -> res unit;
  devices_result : RingDevices;
  open_door_result : device -> res unit;
  close_result : res unit
}.

(** A call made to the vendor client. *)
Inductive call : Type :=
| CallFetchToken (username password : string) (code : option string)
| CallCreateSession
| CallUpdateData
| CallDevices
| CallOpenDoor (d : device)
| CallClose.

(** ** The process state and the monad of effects *)

(** How [Path.write_text] fails. It opens the file with mode 'w', which
    creates or empties it, and then writes: the failure comes from the
    [open], or from the write, flush or close that follow, [written] bytes
    of the text having reached the file. *)
Inductive write_failure : Type :=
| OpenFails (e : exn)
| WriteFails (e : exn) (written : nat).

Definition failure_exn (f : write_failure) : exn :=
  match f with
  | OpenFails e => e
  | WriteFails e _ => e
  end.

(** The file after a failed write of [data]. *)
Definition file_after_failure (f : write_failure) (before : option string)
    (data : string) : option string :=
  match f with
  | OpenFails _ => before
  | WriteFails _ written => Some (String.substring 0 written data)
  end.

Record world : Type := World {
  RING_TOKEN : string;               (* the global RING_TOKEN *)
  data_dir : bool;                   (* os.path.exists('/data') at import *)
  token_file : option string;        (* text of TOKEN_FILE when is_file() *)
  write_error : option write_failure; (* how TOKEN_FILE.write_text fails *)
  _latest_token_b64 : option string; (* the global _latest_token_b64 *)
  stdout : list string;              (* one entry per print *)
  calls : list call                  (* calls to the vendor client *)
}.

Definition TOKEN_FILE (w : world) : string :=
  if data_dir w then "/data/ring_token.json" else "ring_token.json".

Definition USER_AGENT : string := "RingUnlockServer-1.0".

Definition M (A : Type) : Type := world -> res A * world.

Definition ret {A} (a : A) : M A := fun w => (Ret a, w).

Definition raise {A} (e : exn) : M A := fun w => (Raise e, w).

Definition bind {A B} (c : M A) (k : A -> M B) : M B :=
  fun w =>
    match c w with
    | (Ret a, w') => k a w'
    | (Raise e, w') => (Raise e, w')
    end.

Declare Scope py_scope.
Delimit Scope py_scope with py.
Notation "x <- c ;; k" := (bind c (fun x => k))
  (at level 61, c at next level, right associativity) : py_scope.
Notation "c ;; k" := (bind c (fun _ => k))
  (at level 61, right associativity) : py_scope.
Local Open Scope py_scope.

(** [try: c except <classes matched by h>: ...]; an exception [h] does not
    match goes on. *)
Definition try_except {A} (c : M A) (h : exn -> option (M A)) : M A :=
  fun w =>
    match c w with
    | (Ret a, w') => (Ret a, w')
    | (Raise e, w') =>
        match h e with
        | Some handler => handler w'
        | None => (Raise e, w')
        end
    end.

(** [try: c finally: f]; an exception of [f] replaces the outcome of [c]. *)
Definition try_finally {A} (c : M A) (f : M unit) : M A :=
  fun w =>
    match c w with
    | (r, w') =>
        match f w' with
        | (Ret _, w'') => (r, w'')
        | (Raise e, w'') => (Raise e, w'')
        end
    end.

(** A pure call that can raise. *)
Definition lift {A} (r : res A) : M A := fun w => (r, w).

Definition print (s : string) : M unit :=
  fun w => (Ret tt, World (RING_TOKEN w) (data_dir w) (token_file w)
                          (write_error w) (_latest_token_b64 w)
                          (stdout w ++ [s])%list (calls w)).

Definition log_call (c : call) : M unit :=
  fun w => (Ret tt, World (RING_TOKEN w) (data_dir w) (token_file w)
                          (write_error w) (_latest_token_b64 w)
                          (stdout w) (calls w ++ [c])%list).

Definition set_latest_token_b64 (b : string) : M unit :=
  fun w => (Ret tt, World (RING_TOKEN w) (data_dir w) (token_file w)
                          (write_error w) (Some b)
                          (stdout w) (calls w)).

(** [TOKEN_FILE.write_text(data)]: the file holds [data] afterwards, or the
    write raises and the file is what the failure left of it. *)
Definition write_text (data : string) : M unit :=
  fun w =>
    match write_error w with
    | Some f =>
        (Raise (failure_exn f),
         World (RING_TOKEN w) (data_dir w)
               (file_after_failure f (token_file w) data)
               (write_error w) (_latest_token_b64 w)
               (stdout w) (calls w))
    | None => (Ret tt, World (RING_TOKEN w) (data_dir w) (Some data)
                             (write_error w) (_latest_token_b64 w)
                             (stdout w) (calls w))
    end.

Definition get_RING_TOKEN : M string := fun w => (Ret (RING_TOKEN w), w).
Definition get_token_file : M (option string) := fun w => (Ret (token_file w), w).
Definition get_TOKEN_FILE : M string := fun w => (Ret (TOKEN_FILE w), w).

(** The outcome and the final state of running a computation. *)
Definition outcome {A} (c : M A) (w : world) : res A := fst (c w).
Definition final {A} (c : M A) (w : world) : world := snd (c w).

(** ** Token store *)

Section TokenStore.

Context `{PyLib}.

(** [token_updated(token)]: the callback that saves an updated token. *)
Definition token_updated (token : json) : M unit :=
  (* Save to file (works if persistent storage available) *)
  try_except
    (write_text (json_dumps token) ;;
     path <- get_TOKEN_FILE ;;
     print ("Token saved to " ++ path))
    (fun e => Some (print ("Could not save token to file: " ++ str_exn e))) ;;
  (* Also encode as base64 for environment variable storage *)
  let token_json := json_dumps token in
  let token_b64 := b64encode token_json in
  set_latest_token_b64 token_b64 ;;
  print (PyStr.newline ++ PyStr.replicate 60 "=") ;;
  print "TOKEN UPDATED! Copy this value to your RING_TOKEN env var:" ;;
  print (PyStr.replicate 60 "=") ;;
  print token_b64 ;;
  print (PyStr.replicate 60 "=" ++ PyStr.newline).

(** [base64.b64decode(s.encode()).decode()] followed by [json.loads]. *)
Definition decode_env_token (s : string) : res json :=
  match b64decode s with
  | Raise e => Raise e
  | Ret raw =>
      match bytes_decode raw with
      | Raise e => Raise e
      | Ret token_json => json_loads token_json
      end
  end.

(** [get_cached_token()]; a [return] inside a [try] is [Some], falling out
    of it is [None]. *)
Definition get_cached_token : M json :=
  env <- get_RING_TOKEN ;;
  (* First, try environment variable *)
  from_env <-
    (if PyStr.nonempty env then
       try_except
         (v <- lift (decode_env_token env) ;; ret (Some v))
         (fun e => Some (print ("Error decoding RING_TOKEN env var: " ++ str_exn e) ;;
                         ret None))
     else ret None) ;;
  match from_env with
  | Some v => ret v
  | None =>
      (* Fallback to file *)
      file <- get_token_file ;;
      from_file <-
        match file with
        | Some text =>
            try_except
              (v <- lift (json_loads text) ;; ret (Some v))
              (fun e => Some (print ("Error reading token file: " ++ str_exn e) ;;
                              ret None))
        | None => ret None
        end ;;
      match from_file with
      | Some v => ret v
      | None => ret JNull
      end
  end.

End TokenStore.

(** ** Device resolution *)

(** [all_devices.extend(devices.attr)] under [hasattr(devices, 'attr')]. *)
Definition extend_if_has (all_devices : list device) (attr : option (list device))
  : list device :=
  match attr with
  | Some l => (all_devices ++ l)%list
  | None => all_devices
  end.

(** The candidate list [find_intercom] builds from [ring.devices()]. *)
Definition collect_devices (devices : RingDevices) : list device :=
  let all_devices := [] in
  let all_devices := extend_if_has all_devices (other devices) in
  let all_devices := extend_if_has all_devices (doorbots devices) in
  let all_devices := extend_if_has all_devices (stickup_cams devices) in
  let all_devices := extend_if_has all_devices (chimes devices) in
  let all_devices := extend_if_has all_devices (video_doorbells devices) in
  match devices_combined devices with
  | Some combined => combined
  | None => all_devices
  end.

(** [hasattr(device, 'name') and device.name.lower() == INTERCOM_NAME.lower()] *)
Definition name_matches (target : string) (d : device) : bool :=
  match name d with
  | Some n => String.eqb (PyStr.lower n) (PyStr.lower target)
  | None => false
  end.

(** The loop that returns the first device named [target]. *)
Fixpoint find_by_name (target : string) (all_devices : list device)
  : option device :=
  match all_devices with
  | [] => None
  | d :: rest => if name_matches target d then Some d else find_by_name target rest
  end.

Definition device_type (d : device) : string := PyStr.lower (str_type d).

Definition device_family (d : device) : string :=
  match family d with Some f => PyStr.lower f | None => "" end.

Definition device_name (d : device) : string :=
  match name d with Some n => PyStr.lower n | None => "" end.

(** Explicit intercom detection. *)
Definition is_intercom (d : device) : bool :=
  PyStr.contains "intercom" (device_type d)
  || PyStr.contains "intercom" (device_family d)
  || PyStr.contains "intercom" (device_name d).

(** The test of the [elif]. *)
Definition is_other (d : device) : bool := String.eqb (device_family d) "other".

(** The devices the [elif] keeps: not explicit intercoms, and in [other]. *)
Definition catch_all (d : device) : bool := negb (is_intercom d) && is_other d.

(** One turn of the loop that fills [intercom_devices] and [other_devices]. *)
Definition classify (acc : list device * list device) (d : device)
  : list device * list device :=
  let (intercom_devices, other_devices) := acc in
  if is_intercom d then ((intercom_devices ++ [d])%list, other_devices)
  else if is_other d then (intercom_devices, (other_devices ++ [d])%list)
  else acc.

(** [find_intercom] once the candidates are collected. *)
Definition select_intercom (INTERCOM_NAME : string) (all_devices : list device)
  : option device :=
  let named :=
    if PyStr.nonempty INTERCOM_NAME then find_by_name INTERCOM_NAME all_devices
    else None in
  match named with
  | Some d => Some d
  | None =>
      let (intercom_devices, other_devices) :=
        fold_left classify all_devices ([], []) in
      match intercom_devices with
      | d :: _ => Some d
      | [] =>
          match other_devices with
          | d :: _ => Some d
          | [] => None
          end
      end
  end.

(** The devices the failure message of [unlock_door_async] lists. *)
Definition listed_devices (devices : RingDevices) : list device :=
  let all_devices :=
    match devices_combined devices with Some l => l | None => [] end in
  match all_devices, other devices with
  | [], Some l => l
  | _, _ => all_devices
  end.

(** [f"{name} ({family})"] with the defaults of [getattr]. *)
Definition describe (d : device) : string :=
  let name := match name d with Some n => n | None => "Unknown" end in
  let family := match family d with Some f => f | None => "Unknown" end in
  name ++ " (" ++ family ++ ")".

Definition device_list (devices : RingDevices) : list string :=
  map describe (listed_devices devices).

(** ** Sessions and the unlock operation *)

Record Auth : Type := MkAuth { user_agent : string; token : json }.
Record Ring : Type := MkRing { auth_of : Auth }.

(** The pages and responses of the routes, by what they carry. *)
Inductive response : Type :=
| JsonResponse (status : nat) (body : list (string * json))
| SuccessPage (token_b64 : option string)
| VerificationFailedPage (error : option string).

Section Server.

Context `{PyLib}.
Variable cloud : provider.
Variable INTERCOM_NAME : string.

(** The calls of the vendor client: each is logged, then returns or raises
    as [cloud] says. Token refreshes the client may make on its own during
    a call are not modelled. *)
Definition async_create_session (ring : Ring) : M unit :=
  log_call CallCreateSession ;;
  lift (create_session_result cloud (token (auth_of ring))).

Definition async_update_data (ring : Ring) : M unit :=
  log_call CallUpdateData ;;
  lift (update_data_result cloud (token (auth_of ring))).

Definition ring_devices (ring : Ring) : M RingDevices :=
  log_call CallDevices ;; ret (devices_result cloud).

Definition async_open_door (d : device) : M unit :=
  log_call (CallOpenDoor d) ;; lift (open_door_result cloud d).

Definition async_close (auth : Auth) : M unit :=
  log_call CallClose ;; lift (close_result cloud).

(** [auth.async_fetch_token(...)]: on success the client hands the new
    token to its updater, [token_updated]. *)
Definition async_fetch_token (auth : Auth) (username password : string)
    (code : option string) : M Auth :=
  log_call (CallFetchToken username password code) ;;
  new_token <- lift (fetch_token_result cloud username password code) ;;
  token_updated new_token ;;
  ret (MkAuth (user_agent auth) new_token).

(** [intercom.name], which raises when the attribute is missing. *)
Definition get_name (d : device) : M string :=
  match name d with
  | Some n => ret n
  | None => raise (Exn AttributeError
                       ("'" ++ cls_name d ++ "' object has no attribute 'name'"))
  end.

(** [get_ring_client()] *)
Definition get_ring_client : M (option Ring * option Auth) :=
  cached_token <- get_cached_token ;;
  if truthy cached_token then
    let auth := MkAuth USER_AGENT cached_token in
    let ring := MkRing auth in
    try_except
      (async_create_session ring ;;
       async_update_data ring ;;
       ret (Some ring, Some auth))
      (fun e =>
         if is_AuthenticationError e then
           Some (print "Cached token expired, need re-authentication" ;;
                 ret (None, None))
         else None)
  else ret (None, None).

(** [find_intercom(ring)] *)
Definition find_intercom (ring : Ring) : M (option device) :=
  devices <- ring_devices ring ;;
  ret (select_intercom INTERCOM_NAME (collect_devices devices)).

(** [unlock_door_async()] *)
Definition unlock_door_async : M (bool * string) :=
  client <- get_ring_client ;;
  let (ring, auth) := client in
  match ring with
  | None => ret (false, "Not authenticated. Please visit /setup to authenticate.")
  | Some ring =>
      try_finally
        (try_except
           (intercom <- find_intercom ring ;;
            match intercom with
            | None =>
                (* List all devices for debugging *)
                devices <- ring_devices ring ;;
                ret (false, "No intercom found. Available devices: "
                              ++ PyStr.repr_list (device_list devices))
            | Some intercom =>
                (* Unlock the door *)
                async_open_door intercom ;;
                n <- get_name intercom ;;
                ret (true, "Door unlocked via " ++ n ++ "!")
            end)
           (fun e => Some (ret (false, "Error unlocking door: " ++ str_exn e))))
        (match auth with
         | Some auth => async_close auth
         | None => ret tt
         end)
  end.

(** The route [/unlock], past the API key check. *)
Definition unlock : M response :=
  r <- unlock_door_async ;;
  let (success, message) := r in
  if success then
    ret (JsonResponse 200 [("success", JBool true); ("message", JStr message)])
  else
    ret (JsonResponse 400 [("success", JBool false); ("error", JStr message)]).

(** The inner [verify_2fa()] of the route [/setup/verify-2fa]. *)
Definition verify_2fa (username password code : string)
  : M (bool * option string) :=
  let auth := MkAuth USER_AGENT JNull in
  try_except
    (auth <- async_fetch_token auth username password (Some code) ;;
     (* Verify it works by creating a session *)
     let ring := MkRing auth in
     async_create_session ring ;;
     async_update_data ring ;;
     async_close auth ;;
     ret (true, None))
    (fun e => Some (ret (false, Some (str_exn e)))).

(** The route [/setup/verify-2fa]. *)
Definition setup_verify_2fa (username password code : string) : M response :=
  r <- verify_2fa username password code ;;
  let (success, error) := r in
  if success then
    fun w => (Ret (SuccessPage (_latest_token_b64 w)), w)
  else
    ret (VerificationFailedPage error).

End Server.

(** ** An executable instance of the external libraries

    Base64 with the standard alphabet and padding, UTF-8 validation by the
    shape of the byte sequences, and JSON for the values of [json] in the
    layout [json.dumps] writes by default. Non-ASCII text is written as it
    is, where Python writes [\uXXXX] escapes. The theorems below hold for
    every instance of [PyLib]; this one runs the model on concrete inputs. *)

Module PyRef.

Definition error (msg : string) : exn := Exn OtherException msg.

(** *** base64 *)

Definition alphabet : string :=
  "ABCDEFGHIJKLMNOPQRSTUVWXYZabcdefghijklmnopqrstuvwxyz0123456789+/".

Definition sextet (n : nat) : ascii :=
  match String.get n alphabet with Some c => c | None => "="%char end.

Fixpoint encode (s : string) : string :=
  match s with
  | EmptyString => EmptyString
  | String a EmptyString =>
      let x := nat_of_ascii a in
      String (sextet (x / 4)) (String (sextet (x mod 4 * 16)) "==")
  | String a (String b EmptyString) =>
      let x := nat_of_ascii a in
      let y := nat_of_ascii b in
      String (sextet (x / 4))
        (String (sextet (x mod 4 * 16 + y / 16))
           (String (sextet (y mod 16 * 4)) "="))
  | String a (String b (String c rest)) =>
      let x := nat_of_ascii a in
      let y := nat_of_ascii b in
      let z := nat_of_ascii c in
      String (sextet (x / 4))
        (String (sextet (x mod 4 * 16 + y / 16))
           (String (sextet (y mod 16 * 4 + z / 64))
              (String (sextet (z mod 64)) (encode rest))))
  end.

Fixpoint index_from (i : nat) (c : ascii) (s : string) : option nat :=
  match s with
  | EmptyString => None
  | String c' s' => if Ascii.eqb c c' then Some i else index_from (S i) c s'
  end.

Definition value_of (c : ascii) : option nat := index_from 0 c alphabet.

(** Characters outside the alphabet are discarded, as [b64decode] does
    without [validate]. *)
Fixpoint discard_foreign (s : string) : string :=
  match s with
  | EmptyString => EmptyString
  | String c s' =>
      match value_of c with
      | Some _ => String c (discard_foreign s')
      | None => if Ascii.eqb c "=" then String c (discard_foreign s')
                else discard_foreign s'
      end
  end.

Definition byte (n : nat) : ascii := ascii_of_nat (n mod 256).

(** The bytes of the quads up to the first padded one: what follows the
    padding is not read. *)
Fixpoint decode_quads (s : string) : option string :=
  match s with
  | EmptyString => Some EmptyString
  | String a (String b (String c (String d rest))) =>
      match value_of a, value_of b, value_of c, value_of d with
      | Some x, Some y, Some z, Some t =>
          match decode_quads rest with
          | Some out =>
              Some (String (byte (x * 4 + y / 16))
                      (String (byte (y mod 16 * 16 + z / 4))
                         (String (byte (z mod 4 * 64 + t)) out)))
          | None => None
          end
      | Some x, Some y, Some z, None =>
          if Ascii.eqb d "=" then
            Some (String (byte (x * 4 + y / 16))
                    (String (byte (y mod 16 * 16 + z / 4)) EmptyString))
          else None
      | Some x, Some y, None, None =>
          if Ascii.eqb c "=" && Ascii.eqb d "=" then
            Some (String (byte (x * 4 + y / 16)) EmptyString)
          else None
      | _, _, _, _ => None
      end
  | _ => None
  end.

Definition decode (s : string) : res string :=
  match decode_quads (discard_foreign s) with
  | Some out => Ret out
  | None => Raise (error "Incorrect padding")
  end.

(** *** UTF-8 *)

Definition continuation (c : ascii) : bool :=
  let n := nat_of_ascii c in Nat.leb 128 n && Nat.ltb n 192.

Fixpoint utf8_valid (pending : nat) (s : string) : bool :=
  match s with
  | EmptyString => Nat.eqb pending 0
  | String c s' =>
      let n := nat_of_ascii c in
      match pending with
      | S k => continuation c && utf8_valid k s'
      | O =>
          if Nat.ltb n 128 then utf8_valid 0 s'
          else if Nat.leb 194 n && Nat.ltb n 224 then utf8_valid 1 s'
          else if Nat.leb 224 n && Nat.ltb n 240 then utf8_valid 2 s'
          else if Nat.leb 240 n && Nat.ltb n 245 then utf8_valid 3 s'
          else false
      end
  end.

Definition utf8_decode (s : string) : res string :=
  if utf8_valid 0 s then Ret s
  else Raise (error "'utf-8' codec can't decode bytes").

(** *** json.dumps *)

Definition escape_char (c : ascii) : string :=
  let n := nat_of_ascii c in
  if Ascii.eqb c PyStr.dquote then String "\" (String PyStr.dquote EmptyString)
  else if Ascii.eqb c "\" then "\\"
  else if Nat.eqb n 10 then "\n"
  else if Nat.eqb n 13 then "\r"
  else if Nat.eqb n 9 then "\t"
  else if Nat.eqb n 8 then "\b"
  else if Nat.eqb n 12 then "\f"
  else if Nat.ltb n 32 || Nat.eqb n 127 then
    "\u00" ++ String (PyStr.hex_digit (n / 16))
                (String (PyStr.hex_digit (n mod 16)) EmptyString)
  else String c EmptyString.

Fixpoint escape (s : string) : string :=
  match s with
  | EmptyString => EmptyString
  | String c s' => escape_char c ++ escape s'
  end.

Definition quote (s : string) : string :=
  String PyStr.dquote (escape s ++ String PyStr.dquote EmptyString).

Definition string_of_Z (z : Z) : string := NilZero.string_of_int (Z.to_int z).

Fixpoint dumps (v : json) : string :=
  match v with
  | JNull => "null"
  | JBool true => "true"
  | JBool false => "false"
  | JInt z => string_of_Z z
  | JStr s => quote s
  | JList l => "[" ++ PyStr.join ", " (map dumps l) ++ "]"
  | JDict items =>
      "{" ++ PyStr.join ", "
               (map (fun kv : string * json =>
                       let (k, v) := kv in quote k ++ ": " ++ dumps v)
                    items)
          ++ "}"
  end.

(** *** json.loads *)

Definition is_ws (c : ascii) : bool :=
  let n := nat_of_ascii c in
  Nat.eqb n 32 || Nat.eqb n 9 || Nat.eqb n 10 || Nat.eqb n 13.

Fixpoint skip_ws (s : string) : string :=
  match s with
  | EmptyString => EmptyString
  | String c s' => if is_ws c then skip_ws s' else s
  end.

(** [s] without its prefix [lit]. *)
Fixpoint expect (lit s : string) : option string :=
  match lit, s with
  | EmptyString, _ => Some s
  | String a lit', String b s' => if Ascii.eqb a b then expect lit' s' else None
  | String _ _, EmptyString => None
  end.

Definition is_digit (c : ascii) : bool :=
  let n := nat_of_ascii c in Nat.leb 48 n && Nat.leb n 57.

Fixpoint read_digits (acc : Z) (s : string) : Z * string :=
  match s with
  | EmptyString => (acc, s)
  | String c s' =>
      if is_digit c
      then read_digits (acc * 10 + Z.of_nat (nat_of_ascii c - 48))%Z s'
      else (acc, s)
  end.

(** A number that goes on as a fraction or an exponent is a float. *)
Definition not_float (s : string) : bool :=
  match s with
  | EmptyString => true
  | String c _ => negb (Ascii.eqb c "." || Ascii.eqb c "e" || Ascii.eqb c "E")
  end.

Definition parse_natural (s : string) : option (Z * string) :=
  match s with
  | EmptyString => None
  | String c s' =>
      if Ascii.eqb c "0" then if not_float s' then Some (0%Z, s') else None
      else if is_digit c then
        let (z, rest) := read_digits 0%Z s in
        if not_float rest then Some (z, rest) else None
      else None
  end.

Definition parse_number (s : string) : option (Z * string) :=
  match s with
  | EmptyString => None
  | String c s' =>
      if Ascii.eqb c "-" then
        match parse_natural s' with
        | Some (z, rest) => Some (Z.opp z, rest)
        | None => None
        end
      else parse_natural s
  end.

Definition unescape (c : ascii) : option ascii :=
  if Ascii.eqb c PyStr.dquote then Some PyStr.dquote
  else if Ascii.eqb c "\" then Some "\"%char
  else if Ascii.eqb c "/" then Some "/"%char
  else if Ascii.eqb c "n" then Some (ascii_of_nat 10)
  else if Ascii.eqb c "r" then Some (ascii_of_nat 13)
  else if Ascii.eqb c "t" then Some (ascii_of_nat 9)
  else if Ascii.eqb c "b" then Some (ascii_of_nat 8)
  else if Ascii.eqb c "f" then Some (ascii_of_nat 12)
  else None.

Definition hex_value (c : ascii) : option nat :=
  let n := nat_of_ascii c in
  if is_digit c then Some (n - 48)
  else if Nat.leb 97 n && Nat.leb n 102 then Some (n - 87)
  else if Nat.leb 65 n && Nat.leb n 70 then Some (n - 55)
  else None.

(** The text of a string up to its closing quote, and what follows. Only
    the [\u] escapes of ASCII characters are read. *)
Fixpoint parse_string_body (s : string) : option (string * string) :=
  match s with
  | EmptyString => None
  | String c rest =>
      if Ascii.eqb c PyStr.dquote then Some (EmptyString, rest)
      else if Ascii.eqb c "\" then
        match rest with
        | String e rest1 =>
            match unescape e with
            | Some b =>
                match parse_string_body rest1 with
                | Some (out, r) => Some (String b out, r)
                | None => None
                end
            | None =>
                match rest1 with
                | String h1 (String h2 (String h3 (String h4 rest2))) =>
                    match hex_value h1, hex_value h2, hex_value h3, hex_value h4 with
                    | Some 0, Some 0, Some x, Some y =>
                        if Ascii.eqb e "u" && Nat.ltb (x * 16 + y) 128 then
                          match parse_string_body rest2 with
                          | Some (out, r) =>
                              Some (String (ascii_of_nat (x * 16 + y)) out, r)
                          | None => None
                          end
                        else None
                    | _, _, _, _ => None
                    end
                | _ => None
                end
            end
        | EmptyString => None
        end
      else if Nat.ltb (nat_of_ascii c) 32 then None
      else
        match parse_string_body rest with
        | Some (out, r) => Some (String c out, r)
        | None => None
        end
  end.

Definition starts_with (c : ascii) (s : string) : option string :=
  match s with
  | String c' s' => if Ascii.eqb c c' then Some s' else None
  | EmptyString => None
  end.

Fixpoint parse_value (fuel : nat) (s : string) : option (json * string) :=
  match fuel with
  | O => None
  | S fuel =>
      match skip_ws s with
      | EmptyString => None
      | String c rest =>
          if Ascii.eqb c "n" then
            option_map (fun r => (JNull, r)) (expect "ull" rest)
          else if Ascii.eqb c "t" then
            option_map (fun r => (JBool true, r)) (expect "rue" rest)
          else if Ascii.eqb c "f" then
            option_map (fun r => (JBool false, r)) (expect "alse" rest)
          else if Ascii.eqb c PyStr.dquote then
            match parse_string_body rest with
            | Some (str, r) => Some (JStr str, r)
            | None => None
            end
          else if Ascii.eqb c "[" then
            match starts_with "]" (skip_ws rest) with
            | Some r => Some (JList [], r)
            | None =>
                match parse_items fuel rest with
                | Some (l, r) => Some (JList l, r)
                | None => None
                end
            end
          else if Ascii.eqb c "{" then
            match starts_with "}" (skip_ws rest) with
            | Some r => Some (JDict [], r)
            | None =>
                match parse_members fuel rest with
                | Some (items, r) => Some (JDict items, r)
                | None => None
                end
            end
          else
            match parse_number (String c rest) with
            | Some (z, r) => Some (JInt z, r)
            | None => None
            end
      end
  end
with parse_items (fuel : nat) (s : string) : option (list json * string) :=
  match fuel with
  | O => None
  | S fuel =>
      match parse_value fuel s with
      | Some (v, r) =>
          match skip_ws r with
          | String c r1 =>
              if Ascii.eqb c "," then
                match parse_items fuel r1 with
                | Some (l, r2) => Some (v :: l, r2)
                | None => None
                end
              else if Ascii.eqb c "]" then Some ([v], r1)
              else None
          | EmptyString => None
          end
      | None => None
      end
  end
with parse_members (fuel : nat) (s : string)
  : option (list (string * json) * string) :=
  match fuel with
  | O => None
  | S fuel =>
      match starts_with PyStr.dquote (skip_ws s) with
      | Some r =>
          match parse_string_body r with
          | Some (k, r1) =>
              match starts_with ":" (skip_ws r1) with
              | Some r2 =>
                  match parse_value fuel r2 with
                  | Some (v, r3) =>
                      match skip_ws r3 with
                      | String c r4 =>
                          if Ascii.eqb c "," then
                            match parse_members fuel r4 with
                            | Some (items, r5) => Some ((k, v) :: items, r5)
                            | None => None
                            end
                          else if Ascii.eqb c "}" then Some ([(k, v)], r4)
                          else None
                      | EmptyString => None
                      end
                  | None => None
                  end
              | None => None
              end
          | None => None
          end
      | None => None
      end
  end.

Definition loads (s : string) : res json :=
  match parse_value (2 * String.length s + 2) s with
  | Some (v, rest) =>
      match skip_ws rest with
      | EmptyString => Ret v
      | String _ _ => Raise (error "Extra data")
      end
  | None => Raise (error "Expecting value")
  end.

Definition python : PyLib := {|
  json_dumps := dumps;
  json_loads := loads;
  b64encode := encode;
  b64decode := decode;
  bytes_decode := utf8_decode
|}.

End PyRef.

(** ** Observations on runs *)

Definition is_close (c : call) : bool :=
  match c with CallClose => true | _ => false end.

(** How many times the session was released so far. *)
Definition closes (w : world) : nat := length (filter is_close (calls w)).

(** The explicit token of [w] cannot be used: it is not set, or it does not
    decode. *)
Definition explicit_unusable `{PyLib} (w : world) : Prop :=
  RING_TOKEN w = "" \/ exists e, decode_env_token (RING_TOKEN w) = Raise e.

(** The explicit token of [w] is set and decodes. *)
Definition explicit_usable `{PyLib} (w : world) : Prop :=
  PyStr.nonempty (RING_TOKEN w) = true
  /\ exists v, decode_env_token (RING_TOKEN w) = Ret v.

(** A write of the token file in [w] succeeds, or fails before the file is
    opened. *)
Definition write_keeps_file (w : world) : Prop :=
  match write_error w with
  | Some (WriteFails _ _) => False
  | Some (OpenFails _) => True
  | None => True
  end.

(** The token file of [w] cannot be used: it is absent, or it does not
    parse. *)
Definition durable_unusable `{PyLib} (w : world) : Prop :=
  token_file w = None
  \/ exists text e, token_file w = Some text /\ json_loads text = Raise e.

(** The resolver without a configured name, in the words of the
    specification: the first candidate with "intercom" in its type, family
    or name, case-insensitively; otherwise the first candidate whose family
    equals "other"; otherwise none. *)
Definition family_equals_other (d : device) : bool :=
  match family d with
  | Some f => String.eqb f "other"
  | None => false
  end.

Definition spec_unnamed_choice (all_devices : list device) : option device :=
  match find is_intercom all_devices with
  | Some d => Some d
  | None => find family_equals_other all_devices
  end.

(** ** Concrete inputs *)

Module Examples.

Definition front_door : device :=
  Device "ring_doorbell.other" "RingOther" (Some "other") (Some "Front Door").

Definition chime : device :=
  Device "ring_doorbell.chime" "RingChime" (Some "chime") (Some "Chime").

Definition gate : device :=
  Device "ring_doorbell.other" "RingOther" (Some "Other") (Some "Gate").

Definition doorbell : device :=
  Device "ring_doorbell.doorbot" "RingDoorBell" (Some "doorbots") (Some "Porch").

Definition candidates : list device := [front_door; chime].

Definition stored_token : json :=
  JDict [("access_token", JStr "abc"); ("expires_in", JInt 3600);
         ("refresh_token", JStr "def"); ("token_type", JStr "Bearer")].

Definition other_token : json :=
  JDict [("access_token", JStr "old"); ("expires_in", JInt 3600);
         ("refresh_token", JStr "older"); ("token_type", JStr "Bearer")].

(** A process with no explicit token and [stored_token] in its file. *)
Definition file_world : world :=
  World "" false (Some (PyRef.dumps stored_token)) None None [] [].

(** A process with [stored_token] as explicit token and [other_token] in
    its file. *)
Definition env_world : world :=
  World (PyRef.encode (PyRef.dumps stored_token)) false
        (Some (PyRef.dumps other_token)) None None [] [].

(** The same with a file system that refuses writes. *)
Definition readonly_world : world :=
  World "" true (Some (PyRef.dumps stored_token))
        (Some (OpenFails (Exn OtherException "[Errno 30] Read-only file system")))
        None [] [].

(** A process with no token at all. *)
Definition empty_world : world := World "" false None None None [] [].

Definition no_devices : RingDevices :=
  Build_RingDevices None None None None None None.

(** A vendor client whose every call succeeds, over the devices [ds]. *)
Definition healthy (ds : RingDevices) : provider := {|
  fetch_token_result := fun _ _ _ => Ret stored_token;
  create_session_result := fun _ => Ret tt;
  update_data_result := fun _ => Ret tt;
  devices_result := ds;
  open_door_result := fun _ => Ret tt;
  close_result := Ret tt
|}.

Definition grouped (l : list device) : RingDevices :=
  Build_RingDevices None None None None None (Some l).

(** The door does not open. *)
Definition stuck_door : provider := {|
  fetch_token_result := fun _ _ _ => Ret stored_token;
  create_session_result := fun _ => Ret tt;
  update_data_result := fun _ => Ret tt;
  devices_result := grouped candidates;
  open_door_result := fun _ => Raise (Exn OtherException "Gateway Timeout");
  close_result := Ret tt
|}.

(** The session cannot be opened, for a reason other than the token. *)
Definition unreachable : provider := {|
  fetch_token_result := fun _ _ _ => Raise (Exn OtherException "Cannot connect to host");
  create_session_result := fun _ => Raise (Exn OtherException "Cannot connect to host");
  update_data_result := fun _ => Ret tt;
  devices_result := grouped candidates;
  open_door_result := fun _ => Ret tt;
  close_result := Ret tt
|}.

(** The token is refused. *)
Definition expired : provider := {|
  fetch_token_result := fun _ _ _ => Ret stored_token;
  create_session_result := fun _ => Ret tt;
  update_data_result := fun _ => Raise (Exn AuthenticationError "invalid_grant");
  devices_result := grouped candidates;
  open_door_result := fun _ => Ret tt;
  close_result := Ret tt
|}.

(** The second-factor code is refused. *)
Definition wrong_code : provider := {|
  fetch_token_result := fun _ _ _ => Raise (Exn Requires2FAError "Invalid 2fa code");
  create_session_result := fun _ => Ret tt;
  update_data_result := fun _ => Ret tt;
  devices_result := no_devices;
  open_door_result := fun _ => Ret tt;
  close_result := Ret tt
|}.

(** Devices without a combined listing: one doorbell, nothing in [other]. *)
Definition only_doorbell : RingDevices :=
  Build_RingDevices (Some []) (Some [doorbell]) None None None None.

(** Devices with an empty combined listing beside a group [other]. *)
Definition empty_combined : RingDevices :=
  Build_RingDevices (Some [front_door]) None None None None (Some []).

End Examples.

(** ** The other routes *)

(** What a request carries for the check of the API key:
    [request.headers.get('X-API-Key')] and [request.args.get('api_key')]. *)
Record request : Type := Request {
  header_api_key : option string;
  arg_api_key : option string
}.

(** [a or b] on two optional strings: [a] unless it is [None] or empty. *)
Definition py_or (a b : option string) : option string :=
  match a with
  | Some s => if PyStr.nonempty s then a else b
  | None => b
  end.

(** [provided_key != API_KEY] *)
Definition differs (provided_key : option string) (API_KEY : string) : bool :=
  match provided_key with
  | Some k => negb (String.eqb k API_KEY)
  | None => true
  end.

(** What a route under [require_api_key] answers: the refusal of the
    decorator, or what the route itself returns. *)
Inductive guarded (A : Type) : Type :=
| Refused (r : response)
| Served (a : A).
Arguments Refused {A} r.
Arguments Served {A} a.

(** [require_api_key(f)] *)
Definition require_api_key {A} (API_KEY : string) (f : M A) (req : request)
  : M (guarded A) :=
  let provided_key := py_or (header_api_key req) (arg_api_key req) in
  if negb (PyStr.nonempty API_KEY) then
    ret (Refused (JsonResponse 500
                    [("error", JStr "Server not configured - API_KEY not set")]))
  else if differs provided_key API_KEY then
    ret (Refused (JsonResponse 401 [("error", JStr "Invalid or missing API key")]))
  else
    r <- f ;; ret (Served r).

(** What a request that passes the check runs: the route, its result
    wrapped. *)
Definition served {A} (f : M A) (w : world) : res (guarded A) * world :=
  match f w with
  | (Ret a, w') => (Ret (Served a), w')
  | (Raise e, w') => (Raise e, w')
  end.

(** [v is not None] *)
Definition is_not_None (v : json) : bool :=
  match v with JNull => false | _ => true end.

Definition is_Requires2FAError (e : exn) : bool :=
  match exn_cls e with Requires2FAError => true | _ => false end.

(** The second component of what [do_auth] returns. *)
Inductive auth_data : Type :=
| DataNone
| DataAuth (auth : Auth)
| DataStr (s : string).

(** The HTML pages, by the variables their templates are rendered with. *)
Inductive page : Type :=
| HomePage (authenticated : bool) (url_root : string)
| NoTokenPage
| TokenPage (token_b64 : string)
| SetupPage (authenticated : bool) (ring_username : string)
| AuthSuccessPage
| TwoFactorPage (username password : string)
| AuthFailedPage (error : auth_data).

Section Routes.

Context `{PyLib}.
Variable cloud : provider.
Variable INTERCOM_NAME : string.
Variable API_KEY : string.
Variable RING_USERNAME : string.

(** The route [/]. *)
Definition home (url_root : string) : M page :=
  tok <- get_cached_token ;;
  let authenticated := is_not_None tok in
  ret (HomePage authenticated url_root).

(** The route [/health]. *)
Definition health : M response :=
  tok <- get_cached_token ;;
  let authenticated := is_not_None tok in
  ret (JsonResponse 200 [("status", JStr "healthy");
                         ("authenticated", JBool authenticated)]).

(** [get_token()], the route [/get-token] under the decorator. *)
Definition get_token : M page :=
  tok <- get_cached_token ;;
  if negb (truthy tok) then ret NoTokenPage
  else
    (* Encode token as base64 *)
    let token_json := json_dumps tok in
    let token_b64 := b64encode token_json in
    ret (TokenPage token_b64).

Definition get_token_route (req : request) : M (guarded page) :=
  require_api_key API_KEY get_token req.

(** The route [/unlock] with its decorator. *)
Definition unlock_route (req : request) : M (guarded response) :=
  require_api_key API_KEY (unlock cloud INTERCOM_NAME) req.

(** The route [/setup]. *)
Definition setup_page : M page :=
  tok <- get_cached_token ;;
  let authenticated := is_not_None tok in
  ret (SetupPage authenticated RING_USERNAME).

(** The inner [do_auth()] of the route [/setup/authenticate]. *)
Definition do_auth (username password : string) : M (string * auth_data) :=
  let auth := MkAuth USER_AGENT JNull in
  try_except
    (async_fetch_token cloud auth username password None ;;
     ret ("success", DataNone))
    (fun e =>
       if is_Requires2FAError e then Some (ret ("2fa_required", DataAuth auth))
       else Some (ret ("error", DataStr (str_exn e)))).

(** The route [/setup/authenticate]. *)
Definition setup_authenticate (username password : string) : M page :=
  r <- do_auth username password ;;
  let (result, data) := r in
  if String.eqb result "success" then ret AuthSuccessPage
  else if String.eqb result "2fa_required" then
    (* Store credentials in session for 2FA verification *)
    ret (TwoFactorPage username password)
  else ret (AuthFailedPage data).

End Routes.

(** How many times a door was asked to open so far. *)
Definition is_open_door (c : call) : bool :=
  match c with CallOpenDoor _ => true | _ => false end.

Definition opens (w : world) : nat := length (filter is_open_door (calls w)).

(** The token store of a process: what survives in its globals and file. *)
Definition same_store (w w' : world) : Prop :=
  RING_TOKEN w' = RING_TOKEN w /\ token_file w' = token_file w
  /\ _latest_token_b64 w' = _latest_token_b64 w.

Module Scenarios.

(** A stored token that is an empty JSON object. *)
Definition hollow_world : world := World "" false (Some "{}") None None [] [].

(** A process started with an explicit token that is not base64 of JSON,
    and nothing on file. *)
Definition garbled_world : world := World "not-a-token" false None None None [] [].

(** A process whose explicit token is [other_token], nothing on file. *)
Definition stale_world : world :=
  World (PyRef.encode (PyRef.dumps Examples.other_token)) false None None None [] [].

(** A process with no token and a file system that refuses writes. *)
Definition readonly_empty_world : world :=
  World "" false None
        (Some (OpenFails (Exn OtherException "[Errno 30] Read-only file system")))
        None [] [].

(** A process that holds [stored_token] in its file, on a disk that is
    full: the file opens, and nothing can be written to it. *)
Definition full_disk_world : world :=
  World "" true (Some (PyRef.dumps Examples.stored_token))
        (Some (WriteFails (Exn OtherException "[Errno 28] No space left on device") 0))
        None [] [].

(** The account asks for a second factor. *)
Definition needs_code : provider := {|
  fetch_token_result := fun _ _ code =>
    match code with
    | None => Raise (Exn Requires2FAError "2FA required")
    | Some _ => Ret Examples.stored_token
    end;
  create_session_result := fun _ => Ret tt;
  update_data_result := fun _ => Ret tt;
  devices_result := Examples.no_devices;
  open_door_result := fun _ => Ret tt;
  close_result := Ret tt
|}.

(** The code is accepted, and the session does not open afterwards. *)
Definition accepted_then_down : provider := {|
  fetch_token_result := fun _ _ _ => Ret Examples.stored_token;
  create_session_result := fun _ => Raise (Exn OtherException "Cannot connect to host");
  update_data_result := fun _ => Ret tt;
  devices_result := Examples.no_devices;
  open_door_result := fun _ => Ret tt;
  close_result := Ret tt
|}.

(** A device that has no [name]. *)
Definition nameless : device :=
  Device "ring_doorbell.other" "RingOther" (Some "other") None.

(** An intercom listed after a device of family other. *)
Definition intercom : device :=
  Device "ring_doorbell.other" "RingOther" (Some "other") (Some "Lobby Intercom").

(** A process restarted on empty storage with the encoded form of
    [stored_token] as explicit token. *)
Definition restarted_world : world :=
  World (PyRef.encode (PyRef.dumps Examples.stored_token)) true None None None [] [].

(** A request with a wrong key in its header and the right one in its
    query, and one with an empty key. *)
Definition mixed_request : request := Request (Some "wrong") (Some "s3cret").
Definition blank_request : request := Request (Some "") (Some "").

(** The unlock of the one device Front Door, with every call succeeding. *)
Definition open_front_door : M response :=
  unlock (H := PyRef.python)
    (Examples.healthy (Examples.grouped [Examples.front_door])) "".

End Scenarios.

(** ** Proof automation *)

(** Unfolds the monad so that a run reduces to case analysis on the
    outcomes of the external calls. *)
Ltac run :=
  unfold outcome, final, bind, ret, raise, lift, try_except, try_finally,
    print, log_call, set_latest_token_b64, write_text, get_RING_TOKEN,
    get_token_file, get_TOKEN_FILE in *;
  simpl in *.

(** Counts the door openings in a call log that was extended call by call. *)
Ltac count_opens :=
  unfold opens; simpl; rewrite ?filter_app, ?length_app; simpl; lia.

(** Counts the releases in a call log that was extended call by call. *)
Ltac count_closes :=
  unfold closes; simpl; rewrite ?filter_app, ?length_app; simpl; lia.

(** * Properties *)


(** ** Token store *)

Section TokenStoreFacts.

Context `{PyLib}.

(** What [get_cached_token] returns, by the two sources it reads. *)
Lemma get_cached_token_outcome (w : world) :
  outcome get_cached_token w =
  Ret (match (if PyStr.nonempty (RING_TOKEN w)
              then decode_env_token (RING_TOKEN w)
              else Raise (Exn OtherException "")) with
       | Ret v => v
       | Raise _ =>
           match token_file w with
           | Some text =>
               match json_loads text with Ret v => v | Raise _ => JNull end
           | None => JNull
           end
       end).
Proof.
  unfold get_cached_token. run.
  destruct (PyStr.nonempty (RING_TOKEN w)); simpl.
  - destruct (decode_env_token (RING_TOKEN w)); simpl; [reflexivity|].
    destruct (token_file w) as [text|]; simpl; [|reflexivity].
    destruct (json_loads text); reflexivity.
  - destruct (token_file w) as [text|]; simpl; [|reflexivity].
    destruct (json_loads text); reflexivity.
Qed.

(** Loading only prints: the globals, the file and the call log stay. *)
Lemma get_cached_token_frame (w : world) :
  let w' := final get_cached_token w in
  RING_TOKEN w' = RING_TOKEN w /\ token_file w' = token_file w
  /\ write_error w' = write_error w
  /\ _latest_token_b64 w' = _latest_token_b64 w
  /\ calls w' = calls w /\ data_dir w' = data_dir w.
Proof.
  unfold get_cached_token. destruct w as [env dd file we latest out cs]. run.
  destruct (PyStr.nonempty env); simpl.
  - destruct (decode_env_token env); simpl; [repeat split|].
    destruct file as [text|]; simpl; [|repeat split].
    destruct (json_loads text); simpl; repeat split.
  - destruct file as [text|]; simpl; [|repeat split].
    destruct (json_loads text); simpl; repeat split.
Qed.

(** Loading never raises. *)
Lemma get_cached_token_total (w : world) :
  exists v, outcome get_cached_token w = Ret v.
Proof. rewrite get_cached_token_outcome. eauto. Qed.

(** What [token_updated] leaves behind. *)
Lemma token_updated_run (tok : json) (w : world) :
  outcome (token_updated tok) w = Ret tt
  /\ RING_TOKEN (final (token_updated tok) w) = RING_TOKEN w
  /\ token_file (final (token_updated tok) w) =
     match write_error w with
     | None => Some (json_dumps tok)
     | Some f => file_after_failure f (token_file w) (json_dumps tok)
     end
  /\ _latest_token_b64 (final (token_updated tok) w) =
     Some (b64encode (json_dumps tok))
  /\ calls (final (token_updated tok) w) = calls w.
Proof.
  unfold token_updated. destruct w as [env dd file we latest out cs]. run.
  destruct we; simpl; repeat split.
Qed.

(** C4. [get_cached_token] resolves the token in this order: an explicit
    token that is set and decodes is returned decoded; when it is not set
    or does not decode, the token file is returned when it exists and
    parses; otherwise the result is absent ([None]). So an explicit token
    that decodes wins over a file that holds a different token. *)
Theorem load_resolution_order (w : world) :
  (forall v,
      PyStr.nonempty (RING_TOKEN w) = true ->
      decode_env_token (RING_TOKEN w) = Ret v ->
      outcome get_cached_token w = Ret v)
  /\ (forall text v,
         explicit_unusable w ->
         token_file w = Some text ->
         json_loads text = Ret v ->
         outcome get_cached_token w = Ret v)
  /\ (explicit_unusable w -> durable_unusable w ->
      outcome get_cached_token w = Ret JNull)
  /\ (forall v text v',
         PyStr.nonempty (RING_TOKEN w) = true ->
         decode_env_token (RING_TOKEN w) = Ret v ->
         token_file w = Some text ->
         json_loads text = Ret v' ->
         v <> v' ->
         outcome get_cached_token w = Ret v).
Proof.
  assert (U : explicit_unusable w ->
              (if PyStr.nonempty (RING_TOKEN w)
               then decode_env_token (RING_TOKEN w)
               else Raise (Exn OtherException "")) =
              Raise (match decode_env_token (RING_TOKEN w) with
                     | Raise e => if PyStr.nonempty (RING_TOKEN w) then e
                                  else Exn OtherException ""
                     | Ret _ => Exn OtherException ""
                     end)).
  { intros [E | [e E]].
    - rewrite E. simpl. destruct (decode_env_token ""); reflexivity.
    - rewrite E. destruct (PyStr.nonempty (RING_TOKEN w)); reflexivity. }
  rewrite get_cached_token_outcome.
  repeat split.
  - intros v N D. rewrite N, D. reflexivity.
  - intros text v X F L. rewrite (U X), F, L. reflexivity.
  - intros X [F | [text [e [F L]]]]; rewrite (U X), F; [|rewrite L]; reflexivity.
  - intros v text v' N D _ _ _. rewrite N, D. reflexivity.
Qed.

(** C5. [token_updated] never raises. A failed write of the token file is
    printed and goes no further, however the write fails, and whether the
    write failed or not the global [_latest_token_b64] ends as the base64
    encoding of the JSON text of the token. The file ends with that text
    when the write succeeds, and as the failure left it otherwise. *)
Theorem persist_never_raises (tok : json) (w : world) :
  outcome (token_updated tok) w = Ret tt
  /\ _latest_token_b64 (final (token_updated tok) w) =
     Some (b64encode (json_dumps tok))
  /\ match write_error w with
     | None =>
         token_file (final (token_updated tok) w) = Some (json_dumps tok)
     | Some f =>
         token_file (final (token_updated tok) w) =
           file_after_failure f (token_file w) (json_dumps tok)
         /\ In ("Could not save token to file: " ++ str_exn (failure_exn f))
               (stdout (final (token_updated tok) w))
     end.
Proof.
  unfold token_updated. destruct w as [env dd file we latest out cs]. run.
  destruct we as [f|]; simpl.
  - repeat split. rewrite !in_app_iff. simpl. intuition.
  - repeat split.
Qed.

(** C9, amended. Loading a token, persisting the loaded value and loading
    again returns the value of the first load, for a token [json.loads]
    reads back from its [json.dumps] text, when the explicit token is set
    and decodes, or the write of the file succeeds, or it fails before the
    file is opened. *)
Theorem load_persist_load (w : world) (v : json) :
  outcome get_cached_token w = Ret v ->
  json_loads (json_dumps v) = Ret v ->
  explicit_usable w \/ write_keeps_file w ->
  let w1 := final get_cached_token w in
  let w2 := final (token_updated v) w1 in
  outcome get_cached_token w2 = Ret v.
Proof.
  intros L RT K w1 w2.
  destruct (get_cached_token_frame w) as (E1 & F1 & W1 & _).
  destruct (token_updated_run v w1) as (_ & E2 & F2 & _).
  fold w1 in E1, F1, W1. fold w2 in E2, F2.
  rewrite get_cached_token_outcome in L |- *.
  rewrite E2, E1, F2, W1, F1.
  destruct K as [[N [v0 D]] | K].
  - rewrite N, D in L |- *. exact L.
  - unfold write_keeps_file in K.
    destruct (write_error w) as [[e | e n]|]; simpl; [exact L | contradiction |].
    destruct (if PyStr.nonempty (RING_TOKEN w)
              then decode_env_token (RING_TOKEN w)
              else Raise (Exn OtherException "")); [exact L|].
    rewrite RT. reflexivity.
Qed.

End TokenStoreFacts.

(** ** Device resolution *)

Section ResolverFacts.

(** The loop over names is a search for the first match. *)
Lemma find_by_name_find (target : string) (l : list device) :
  find_by_name target l = find (name_matches target) l.
Proof.
  induction l as [|d l IH]; simpl; [reflexivity|].
  rewrite IH. reflexivity.
Qed.

(** [find] returns the first element that passes the test. *)
Lemma find_first {A} (p : A -> bool) (before : list A) (d : A) (after : list A) :
  p d = true ->
  (forall x, In x before -> p x = false) ->
  find p (before ++ d :: after) = Some d.
Proof.
  intros Hd. induction before as [|x before IH]; simpl; intros Hb.
  - rewrite Hd. reflexivity.
  - rewrite (Hb x (or_introl eq_refl)). apply IH. intros y Hy. apply Hb. now right.
Qed.

Lemma find_none_all {A} (p : A -> bool) (l : list A) :
  (forall x, In x l -> p x = false) -> find p l = None.
Proof.
  induction l as [|x l IH]; simpl; intros Hl; [reflexivity|].
  rewrite (Hl x (or_introl eq_refl)). apply IH. intros y Hy. apply Hl. now right.
Qed.

(** The two lists the classification loop builds. *)
Lemma classify_fold (l ic ot : list device) :
  fold_left classify l (ic, ot) =
  ((ic ++ filter is_intercom l)%list, (ot ++ filter catch_all l)%list).
Proof.
  revert ic ot. induction l as [|d l IH]; intros ic ot; simpl.
  - now rewrite !app_nil_r.
  - unfold catch_all at 1. destruct (is_intercom d); simpl.
    + rewrite IH, <- app_assoc. reflexivity.
    + destruct (is_other d); simpl; rewrite IH, <- ?app_assoc; reflexivity.
Qed.

Lemma head_filter {A} (p : A -> bool) (l : list A) :
  match filter p l with d :: _ => Some d | [] => None end = find p l.
Proof.
  induction l as [|x l IH]; simpl; [reflexivity|].
  destruct (p x); [reflexivity | exact IH].
Qed.

Lemma find_catch_all (l : list device) :
  find is_intercom l = None -> find catch_all l = find is_other l.
Proof.
  induction l as [|d l IH]; simpl; [reflexivity|].
  unfold catch_all at 1. destruct (is_intercom d); simpl; [discriminate|].
  intros Hn. destruct (is_other d); [reflexivity | exact (IH Hn)].
Qed.

(** The resolver as two searches: the configured name first, then the
    heuristic. *)
Lemma select_intercom_searches (target : string) (l : list device) :
  select_intercom target l =
  match (if PyStr.nonempty target then find (name_matches target) l else None) with
  | Some d => Some d
  | None =>
      match find is_intercom l with
      | Some d => Some d
      | None => find is_other l
      end
  end.
Proof.
  unfold select_intercom. rewrite find_by_name_find.
  destruct (if PyStr.nonempty target then find (name_matches target) l else None);
    [reflexivity|].
  rewrite classify_fold. simpl.
  pose proof (head_filter is_intercom l) as Hi.
  pose proof (head_filter catch_all l) as Ho.
  destruct (filter is_intercom l) as [|d ?].
  - rewrite <- Hi. rewrite <- (find_catch_all l (eq_sym Hi)).
    destruct (filter catch_all l); exact Ho.
  - rewrite <- Hi. reflexivity.
Qed.

(** C2, amended. With no configured name the resolver returns the first
    candidate whose type, family or name contains "intercom",
    case-insensitively; otherwise the first candidate whose family,
    lowercased, equals "other"; otherwise none. For the candidates
    Front Door (other) and Chime (chime) it returns Front Door. *)
Theorem unnamed_resolution (all_devices : list device) :
  select_intercom "" all_devices =
    match find is_intercom all_devices with
    | Some d => Some d
    | None => find is_other all_devices
    end
  /\ select_intercom "" Examples.candidates = Some Examples.front_door.
Proof.
  split; [|reflexivity].
  rewrite select_intercom_searches. reflexivity.
Qed.

(** C2 as stated fails: a device whose family is written "Other" is
    selected by the code, and is not by a test for equality with "other". *)
Lemma unnamed_resolution_exact_other_fails :
  select_intercom "" [Examples.gate] = Some Examples.gate
  /\ spec_unnamed_choice [Examples.gate] = None
  /\ select_intercom "" [Examples.gate] <> spec_unnamed_choice [Examples.gate].
Proof. repeat split. discriminate. Qed.

(** C3. When a name is configured and some candidate has that name up to
    case, the resolver returns the first such candidate, whatever the
    families of the candidates are. *)
Theorem configured_name_wins (target : string)
    (before : list device) (d : device) (after : list device) :
  PyStr.nonempty target = true ->
  name_matches target d = true ->
  (forall x, In x before -> name_matches target x = false) ->
  select_intercom target (before ++ d :: after) = Some d.
Proof.
  intros Hn Hd Hb. rewrite select_intercom_searches, Hn.
  rewrite (find_first _ _ _ _ Hd Hb). reflexivity.
Qed.

(** C10. When a name is configured and no candidate has it, the resolver
    does not stop at none: it applies the heuristic to all the candidates,
    as if no name were configured. *)
Theorem unmatched_name_falls_back (target : string) (all_devices : list device) :
  PyStr.nonempty target = true ->
  (forall d, In d all_devices -> name_matches target d = false) ->
  select_intercom target all_devices = select_intercom "" all_devices
  /\ select_intercom target all_devices =
     match find is_intercom all_devices with
     | Some d => Some d
     | None => find is_other all_devices
     end.
Proof.
  intros _ Hall. rewrite !select_intercom_searches. simpl.
  rewrite (find_none_all _ _ Hall).
  destruct (PyStr.nonempty target); split; reflexivity.
Qed.

(** With a combined listing that is not empty, the failure message lists
    the candidates of the resolver. *)
Lemma listed_devices_combined (devices : RingDevices) (d : device) (l : list device) :
  devices_combined devices = Some (d :: l) ->
  listed_devices devices = collect_devices devices.
Proof.
  intros E. unfold listed_devices, collect_devices. rewrite E. reflexivity.
Qed.

(** Without a combined listing, it lists the group [other] alone. *)
Lemma listed_devices_uncombined (devices : RingDevices) :
  devices_combined devices = None ->
  listed_devices devices =
  match other devices with Some l => l | None => [] end.
Proof.
  intros E. unfold listed_devices. rewrite E. destruct (other devices); reflexivity.
Qed.

End ResolverFacts.

(** C3 at the candidates Front Door (other) and Chime (chime) with the name
    "CHIME" configured. *)
Lemma configured_name_wins_witness :
  select_intercom "CHIME" Examples.candidates = Some Examples.chime.
Proof.
  apply (configured_name_wins "CHIME" [Examples.front_door] Examples.chime []).
  - reflexivity.
  - reflexivity.
  - intros x [<- | []]. reflexivity.
Defined.

(** C10 at the same candidates with the name "Garage" configured: the
    device selected is Front Door. *)
Lemma unmatched_name_falls_back_witness :
  select_intercom "Garage" Examples.candidates = Some Examples.front_door.
Proof.
  destruct (unmatched_name_falls_back "Garage" Examples.candidates) as [E _].
  - reflexivity.
  - intros d [<- | [<- | []]]; reflexivity.
  - rewrite E. reflexivity.
Defined.

(** ** Sessions and the unlock operation *)

Section ServerFacts.

Context `{PyLib}.
Variable cloud : provider.
Variable INTERCOM_NAME : string.

Lemma bind_run {A B} (c : M A) (k : A -> M B) (w : world) :
  bind c k w =
  match c w with
  | (Ret a, w') => k a w'
  | (Raise e, w') => (Raise e, w')
  end.
Proof. reflexivity. Qed.

Lemma closes_calls (w w' : world) : calls w' = calls w -> closes w' = closes w.
Proof. unfold closes. now intros ->. Qed.

(** A run of [get_cached_token]: a value, and no call to the vendor. *)
Lemma get_cached_token_run (w : world) :
  exists v w1, get_cached_token w = (Ret v, w1) /\ calls w1 = calls w
               /\ outcome get_cached_token w = Ret v.
Proof.
  destruct (get_cached_token_total w) as [v Hv].
  destruct (get_cached_token_frame w) as (_ & _ & _ & _ & Hc & _).
  unfold outcome, final in *.
  destruct (get_cached_token w) as [r w1]. simpl in *. subst r.
  exists v, w1. auto.
Qed.

(** A run of [get_ring_client], by the token loaded and the outcomes of
    the two calls that open the session. *)
Lemma get_ring_client_run (w : world) :
  exists v, outcome get_cached_token w = Ret v
  /\ closes (final (get_ring_client cloud) w) = closes w
  /\ outcome (get_ring_client cloud) w =
     if truthy v then
       match create_session_result cloud v with
       | Ret _ =>
           match update_data_result cloud v with
           | Ret _ => Ret (Some (MkRing (MkAuth USER_AGENT v)),
                           Some (MkAuth USER_AGENT v))
           | Raise e =>
               if is_AuthenticationError e then Ret (None, None) else Raise e
           end
       | Raise e =>
           if is_AuthenticationError e then Ret (None, None) else Raise e
       end
     else Ret (None, None).
Proof.
  destruct (get_cached_token_run w) as (v & w1 & G & Hc & Hv).
  exists v. split; [exact Hv|].
  unfold get_ring_client, async_create_session, async_update_data.
  unfold outcome, final, bind. rewrite G.
  rewrite <- (closes_calls w w1 Hc).
  destruct w1 as [env dd file we latest out cs].
  destruct (truthy v); [|split; reflexivity].
  run.
  destruct (create_session_result cloud v) as [[]|e]; simpl.
  - destruct (update_data_result cloud v) as [[]|e]; simpl.
    + split; [|reflexivity]. count_closes.
    + destruct (is_AuthenticationError e); simpl;
        (split; [|reflexivity]); count_closes.
  - destruct (is_AuthenticationError e); simpl;
      (split; [|reflexivity]); count_closes.
Qed.

(** The session is absent or whole: ring and auth come together. *)
Lemma get_ring_client_cases (w : world) :
  outcome (get_ring_client cloud) w = Ret (None, None)
  \/ (exists ring auth, outcome (get_ring_client cloud) w = Ret (Some ring, Some auth))
  \/ (exists e, outcome (get_ring_client cloud) w = Raise e
                /\ is_AuthenticationError e = false).
Proof.
  destruct (get_ring_client_run w) as (v & _ & _ & ->).
  destruct (truthy v); [|now left].
  destruct (create_session_result cloud v) as [[]|e].
  - destruct (update_data_result cloud v) as [[]|e]; [right; left; eauto|].
    destruct (is_AuthenticationError e) eqn:A; [now left | right; right; eauto].
  - destruct (is_AuthenticationError e) eqn:A; [now left | right; right; eauto].
Qed.

(** C1. When the session acquired is absent, [unlock_door_async] does not
    release anything. When a session is acquired, it releases it exactly
    once, whichever way it ends; and when opening the door raises, the
    result is a failure that carries the text of the error (the release
    raising being the one way no result is returned). *)
Theorem release_discipline (w : world) :
  let w' := final (unlock_door_async cloud INTERCOM_NAME) w in
  (outcome (get_ring_client cloud) w = Ret (None, None) ->
   closes w' = closes w)
  /\ (forall ring auth,
         outcome (get_ring_client cloud) w = Ret (Some ring, Some auth) ->
         closes w' = S (closes w)
         /\ forall d e,
             select_intercom INTERCOM_NAME
               (collect_devices (devices_result cloud)) = Some d ->
             open_door_result cloud d = Raise e ->
             outcome (unlock_door_async cloud INTERCOM_NAME) w =
             match close_result cloud with
             | Ret _ => Ret (false, "Error unlocking door: " ++ str_exn e)
             | Raise e' => Raise e'
             end).
Proof.
  intros w'. subst w'.
  destruct (get_ring_client_run w) as (v & _ & Hc & _).
  unfold unlock_door_async, outcome, final in *. rewrite bind_run.
  destruct (get_ring_client cloud w) as [[[ring auth]|e0] w1]; simpl in Hc |- *;
    (split; [intros E | intros ring' auth' E]); try discriminate;
    inversion E; subst; clear E.
  - simpl. exact Hc.
  - rewrite <- Hc. clear Hc.
    unfold find_intercom, ring_devices, async_open_door, async_close, get_name.
    destruct w1 as [env dd file we latest out cs]. run.
    split.
    + destruct (select_intercom INTERCOM_NAME
                  (collect_devices (devices_result cloud))) as [d|]; simpl.
      * destruct (open_door_result cloud d) as [[]|e]; simpl.
        -- destruct (name d); simpl;
             destruct (close_result cloud) as [[]|e']; simpl; count_closes.
        -- destruct (close_result cloud) as [[]|e']; simpl; count_closes.
      * destruct (close_result cloud) as [[]|e']; simpl; count_closes.
    + intros d e Hd He. rewrite Hd. simpl. rewrite He. simpl.
      destruct (close_result cloud) as [[]|e']; reflexivity.
Qed.

(** An error that is not an authentication failure, raised while the
    session is opened, leaves [unlock_door_async] as it was raised, and
    the route with it. *)
Lemma acquisition_error_propagates (w : world) (v : json) (e : exn) :
  outcome get_cached_token w = Ret v ->
  truthy v = true ->
  is_AuthenticationError e = false ->
  create_session_result cloud v = Raise e
  \/ (create_session_result cloud v = Ret tt
      /\ update_data_result cloud v = Raise e) ->
  outcome (unlock_door_async cloud INTERCOM_NAME) w = Raise e
  /\ outcome (unlock cloud INTERCOM_NAME) w = Raise e
  /\ closes (final (unlock_door_async cloud INTERCOM_NAME) w) = closes w.
Proof.
  intros Hv Ht Ha Hr.
  destruct (get_ring_client_run w) as (v' & Hv' & Hc & Ho).
  rewrite Hv in Hv'. inversion Hv'; subst v'; clear Hv'.
  rewrite Ht in Ho.
  assert (Hraise : outcome (get_ring_client cloud) w = Raise e).
  { rewrite Ho. destruct Hr as [-> | [-> ->]]; rewrite Ha; reflexivity. }
  clear Ho. unfold unlock, unlock_door_async, outcome, final in *.
  rewrite !bind_run.
  destruct (get_ring_client cloud w) as [r w1]. simpl in *. subst r.
  auto.
Qed.

(** An authentication failure while the session is opened gives the
    result that asks to authenticate. *)
Lemma authentication_failure_is_absent (w : world) (v : json) (e : exn) :
  outcome get_cached_token w = Ret v ->
  truthy v = true ->
  is_AuthenticationError e = true ->
  create_session_result cloud v = Raise e
  \/ (create_session_result cloud v = Ret tt
      /\ update_data_result cloud v = Raise e) ->
  outcome (get_ring_client cloud) w = Ret (None, None)
  /\ outcome (unlock_door_async cloud INTERCOM_NAME) w =
     Ret (false, "Not authenticated. Please visit /setup to authenticate.").
Proof.
  intros Hv Ht Ha Hr.
  destruct (get_ring_client_run w) as (v' & Hv' & Hc & Ho).
  rewrite Hv in Hv'. inversion Hv'; subst v'; clear Hv'.
  rewrite Ht in Ho.
  assert (Habs : outcome (get_ring_client cloud) w = Ret (None, None)).
  { rewrite Ho. destruct Hr as [-> | [-> ->]]; rewrite Ha; reflexivity. }
  split; [exact Habs|].
  clear Ho. unfold unlock_door_async, outcome, final in *.
  rewrite bind_run.
  destruct (get_ring_client cloud w) as [r w1]. simpl in *. subst r.
  reflexivity.
Qed.

End ServerFacts.

(** ** Second-factor stage of the login *)

Section LoginFacts.

Context `{PyLib}.
Variable cloud : provider.

(** C7. A second-factor submission ends on the success page only when the
    authentication call returned a token and one session was opened with
    that token, read and closed, in this order and with no other call;
    the failure of the authentication call, as with an incorrect code, or
    of any step of that session, ends on the failure page with the text of
    the error. The route never raises. *)
Theorem second_factor_verification (w : world) (username password code : string) :
  let run := setup_verify_2fa cloud username password code in
  match outcome run w with
  | Ret (SuccessPage _) =>
      exists tok,
        fetch_token_result cloud username password (Some code) = Ret tok
        /\ create_session_result cloud tok = Ret tt
        /\ update_data_result cloud tok = Ret tt
        /\ close_result cloud = Ret tt
        /\ calls (final run w) =
           (calls w ++ [CallFetchToken username password (Some code);
                        CallCreateSession; CallUpdateData; CallClose])%list
  | Ret (VerificationFailedPage reason) =>
      exists e,
        reason = Some (str_exn e)
        /\ (fetch_token_result cloud username password (Some code) = Raise e
            \/ exists tok,
                fetch_token_result cloud username password (Some code) = Ret tok
                /\ (create_session_result cloud tok = Raise e
                    \/ update_data_result cloud tok = Raise e
                    \/ close_result cloud = Raise e))
  | Ret (JsonResponse _ _) => False
  | Raise _ => False
  end.
Proof.
  intros run. subst run.
  unfold setup_verify_2fa, verify_2fa, async_fetch_token, async_create_session,
    async_update_data, async_close.
  destruct w as [env dd file we latest out cs].
  unfold outcome, final, try_except, log_call, lift, ret, bind. simpl.
  destruct (fetch_token_result cloud username password (Some code))
    as [tok|e] eqn:F; simpl.
  2:{ exists e. auto. }
  destruct (token_updated_run tok
              (World env dd file we latest out
                 (cs ++ [CallFetchToken username password (Some code)])))
    as (Ho & _ & _ & _ & Hc).
  unfold outcome, final in Ho, Hc.
  destruct (token_updated tok _) as [r w2]. simpl in Ho, Hc. subst r.
  simpl.
  destruct (create_session_result cloud tok) as [[]|e] eqn:C; simpl.
  2:{ exists e. split; [reflexivity|]. right. exists tok. auto. }
  destruct (update_data_result cloud tok) as [[]|e] eqn:U; simpl.
  2:{ exists e. split; [reflexivity|]. right. exists tok. auto. }
  destruct (close_result cloud) as [[]|e] eqn:X; simpl.
  2:{ exists e. split; [reflexivity|]. right. exists tok. auto. }
  exists tok. repeat split; try assumption.
  rewrite Hc, <- !app_assoc. reflexivity.
Qed.

End LoginFacts.

(** ** The properties on concrete runs *)

(** C1 on a run where the door does not open: one release, and a failure
    that carries the text of the error. *)
Lemma release_discipline_witness :
  closes (final (unlock_door_async (H := PyRef.python) Examples.stuck_door "")
                Examples.file_world) = 1
  /\ outcome (unlock_door_async (H := PyRef.python) Examples.stuck_door "")
             Examples.file_world =
     Ret (false, "Error unlocking door: Gateway Timeout").
Proof.
  destruct (release_discipline (H := PyRef.python) Examples.stuck_door ""
              Examples.file_world) as [_ Hacq].
  destruct (Hacq (MkRing (MkAuth USER_AGENT Examples.stored_token))
                 (MkAuth USER_AGENT Examples.stored_token) eq_refl) as [Hone Hfail].
  split.
  - exact Hone.
  - exact (Hfail Examples.front_door (Exn OtherException "Gateway Timeout")
                 eq_refl eq_refl).
Defined.

(** C4 on a process whose explicit token and token file hold different
    tokens: the explicit one is returned. *)
Lemma load_resolution_order_witness :
  outcome (get_cached_token (H := PyRef.python)) Examples.env_world =
  Ret Examples.stored_token.
Proof.
  destruct (load_resolution_order (H := PyRef.python) Examples.env_world)
    as (_ & _ & _ & Hboth).
  apply (Hboth Examples.stored_token (PyRef.dumps Examples.other_token)
               Examples.other_token).
  - reflexivity.
  - vm_compute. reflexivity.
  - reflexivity.
  - vm_compute. reflexivity.
  - discriminate.
Defined.

(** C9 on a process that holds its token in the file. *)
Lemma load_persist_load_witness :
  outcome (get_cached_token (H := PyRef.python))
    (final (token_updated (H := PyRef.python) Examples.stored_token)
       (final (get_cached_token (H := PyRef.python)) Examples.file_world)) =
  Ret Examples.stored_token.
Proof.
  apply (load_persist_load (H := PyRef.python) Examples.file_world
           Examples.stored_token).
  - vm_compute. reflexivity.
  - vm_compute. reflexivity.
  - right. exact I.
Defined.

(** C9 as stated fails: with the token loaded from the file and a write
    that fails after the file was opened, the file is left empty, and the
    load that follows returns none. *)
Lemma load_persist_load_fails_on_truncating_write :
  outcome (get_cached_token (H := PyRef.python)) Scenarios.full_disk_world =
    Ret Examples.stored_token
  /\ PyRef.loads (PyRef.dumps Examples.stored_token) = Ret Examples.stored_token
  /\ outcome (get_cached_token (H := PyRef.python))
       (final (token_updated (H := PyRef.python) Examples.stored_token)
          (final (get_cached_token (H := PyRef.python)) Scenarios.full_disk_world)) =
     Ret JNull
  /\ outcome (get_cached_token (H := PyRef.python))
       (final (token_updated (H := PyRef.python) Examples.stored_token)
          (final (get_cached_token (H := PyRef.python)) Scenarios.full_disk_world)) <>
     outcome (get_cached_token (H := PyRef.python)) Scenarios.full_disk_world.
Proof. repeat split; try (vm_compute; reflexivity). vm_compute. discriminate. Qed.

(** C6 on the code: with a valid token stored, an error of the transport
    while the session is opened leaves [unlock_door_async] and the route as
    an exception, not as a result, and the session is not released; an
    authentication failure gives the result that asks to authenticate. *)
Theorem acquisition_error_escapes :
  outcome (unlock_door_async (H := PyRef.python) Examples.unreachable "")
          Examples.file_world =
  Raise (Exn OtherException "Cannot connect to host")
  /\ outcome (unlock (H := PyRef.python) Examples.unreachable "")
             Examples.file_world =
     Raise (Exn OtherException "Cannot connect to host")
  /\ outcome (unlock_door_async (H := PyRef.python) Examples.expired "")
             Examples.file_world =
     Ret (false, "Not authenticated. Please visit /setup to authenticate.").
Proof. repeat split; vm_compute; reflexivity. Qed.

(** C8 on the code: without a combined listing, a doorbell is a candidate
    of the resolver and is not selected, and the failure message lists no
    device; with an empty combined listing there is no candidate, and the
    message lists the group [other]. *)
Theorem diagnostic_misses_candidates :
  collect_devices Examples.only_doorbell = [Examples.doorbell]
  /\ select_intercom "" (collect_devices Examples.only_doorbell) = None
  /\ device_list Examples.only_doorbell = []
  /\ outcome (unlock_door_async (H := PyRef.python)
                (Examples.healthy Examples.only_doorbell) "")
             Examples.file_world =
     Ret (false, "No intercom found. Available devices: []")
  /\ collect_devices Examples.empty_combined = []
  /\ device_list Examples.empty_combined = ["Front Door (other)"].
Proof. repeat split; vm_compute; reflexivity. Qed.

(** An incorrect code ends on the failure page, after the one call that
    checks it. *)
Example incorrect_code_fails :
  setup_verify_2fa (H := PyRef.python) Examples.wrong_code "user" "secret" "000000"
    Examples.empty_world =
  (Ret (VerificationFailedPage (Some "Invalid 2fa code")),
   World "" false None None None []
         [CallFetchToken "user" "secret" (Some "000000")]).
Proof. vm_compute. reflexivity. Qed.

(** A token persisted on a file system that refuses writes is still kept
    in [_latest_token_b64], and the file is as before. *)
Example persist_on_readonly_storage :
  let w := final (token_updated (H := PyRef.python) Examples.stored_token)
                 Examples.readonly_world in
  _latest_token_b64 w = Some (PyRef.encode (PyRef.dumps Examples.stored_token))
  /\ token_file w = token_file Examples.readonly_world.
Proof. vm_compute. split; reflexivity. Qed.

(** A stored token, one device of family other, and a door that opens. *)
Example unlock_end_to_end :
  outcome (unlock (H := PyRef.python)
             (Examples.healthy (Examples.grouped [Examples.front_door])) "")
          Examples.file_world =
  Ret (JsonResponse 200 [("success", JBool true);
                         ("message", JStr "Door unlocked via Front Door!")]).
Proof. vm_compute. reflexivity. Qed.

(** No stored token: the route answers 400 and asks to authenticate. *)
Example unlock_without_token :
  outcome (unlock (H := PyRef.python)
             (Examples.healthy (Examples.grouped [Examples.front_door])) "")
          Examples.empty_world =
  Ret (JsonResponse 400
         [("success", JBool false);
          ("error", JStr "Not authenticated. Please visit /setup to authenticate.")]).
Proof. vm_compute. reflexivity. Qed.

(** * Further properties of the code *)

(** ** The API key check *)

Section ApiKeyFacts.

Context {A : Type}.
Variable API_KEY : string.
Variable f : M A.

(** With no API key configured, every request is answered 500 and the route
    is not run, also a request that sends an empty key. *)
Theorem unconfigured_key_refuses_all (req : request) (w : world) :
  PyStr.nonempty API_KEY = false ->
  require_api_key API_KEY f req w =
  (Ret (Refused (JsonResponse 500
                   [("error", JStr "Server not configured - API_KEY not set")])),
   w).
Proof.
  intros E. unfold require_api_key. rewrite E. reflexivity.
Qed.

(** With a key configured, a header [X-API-Key] that is not empty decides
    alone, whatever the query parameter is; without such a header the query
    parameter [api_key] decides. A request refused is answered 401 and the
    route is not run. *)
Theorem header_key_decides_before_query_key (req : request) (w : world) :
  PyStr.nonempty API_KEY = true ->
  (forall h,
      header_api_key req = Some h -> PyStr.nonempty h = true ->
      require_api_key API_KEY f req w =
      if String.eqb h API_KEY then served f w
      else (Ret (Refused (JsonResponse 401
                            [("error", JStr "Invalid or missing API key")])), w))
  /\ (header_api_key req = None \/ header_api_key req = Some "" ->
      require_api_key API_KEY f req w =
      match arg_api_key req with
      | Some k =>
          if String.eqb k API_KEY then served f w
          else (Ret (Refused (JsonResponse 401
                                [("error", JStr "Invalid or missing API key")])), w)
      | None =>
          (Ret (Refused (JsonResponse 401
                           [("error", JStr "Invalid or missing API key")])), w)
      end).
Proof.
  intros E. unfold require_api_key, served, py_or, differs. rewrite E. simpl.
  split.
  - intros h Hh Hn. rewrite Hh, Hn.
    destruct (String.eqb h API_KEY); simpl; [|reflexivity].
    unfold bind, ret. destruct (f w) as [[a|e] w']; reflexivity.
  - intros [Hh | Hh]; rewrite Hh; simpl;
      (destruct (arg_api_key req) as [k|]; [|reflexivity]);
      (destruct (String.eqb k API_KEY); simpl; [|reflexivity]);
      unfold bind, ret; destruct (f w) as [[a|e] w']; reflexivity.
Qed.

End ApiKeyFacts.

(** ** Loading, persisting and the explicit token *)

Section StoreFacts.

Context `{PyLib}.

(** A process whose explicit token is the encoded form of [tok] loads
    [tok], whatever its token file holds. *)
Lemma encoded_token_loads (w : world) (tok : json) :
  PyStr.nonempty (b64encode (json_dumps tok)) = true ->
  b64decode (b64encode (json_dumps tok)) = Ret (json_dumps tok) ->
  bytes_decode (json_dumps tok) = Ret (json_dumps tok) ->
  json_loads (json_dumps tok) = Ret tok ->
  RING_TOKEN w = b64encode (json_dumps tok) ->
  outcome get_cached_token w = Ret tok.
Proof.
  intros Hn Hb Hu Hj Hw. rewrite get_cached_token_outcome, Hw, Hn.
  unfold decode_env_token. rewrite Hb, Hu, Hj. reflexivity.
Qed.

(** The value [token_updated] keeps in [_latest_token_b64], set as
    [RING_TOKEN] of a process, makes that process load the token that was
    persisted, for a token the codecs read back. *)
Theorem latest_token_restores_login (w w' : world) (tok : json) :
  PyStr.nonempty (b64encode (json_dumps tok)) = true ->
  b64decode (b64encode (json_dumps tok)) = Ret (json_dumps tok) ->
  bytes_decode (json_dumps tok) = Ret (json_dumps tok) ->
  json_loads (json_dumps tok) = Ret tok ->
  Some (RING_TOKEN w') = _latest_token_b64 (final (token_updated tok) w) ->
  outcome get_cached_token w' = Ret tok.
Proof.
  intros Hn Hb Hu Hj Hw.
  destruct (token_updated_run tok w) as (_ & _ & _ & Hl & _).
  rewrite Hl in Hw. inversion Hw as [Hw'].
  now apply encoded_token_loads.
Qed.

(** The value the page of [/get-token] shows, set as [RING_TOKEN] of a
    process, makes that process load the token the page was made from. *)
Theorem shown_token_restores_login (w w' : world) (v : json) (shown : string) :
  outcome get_cached_token w = Ret v ->
  outcome get_token w = Ret (TokenPage shown) ->
  PyStr.nonempty shown = true ->
  b64decode (b64encode (json_dumps v)) = Ret (json_dumps v) ->
  bytes_decode (json_dumps v) = Ret (json_dumps v) ->
  json_loads (json_dumps v) = Ret v ->
  RING_TOKEN w' = shown ->
  outcome get_cached_token w' = Ret v.
Proof.
  intros Hv Hp Hn Hb Hu Hj Hw.
  assert (Hs : shown = b64encode (json_dumps v)).
  { unfold get_token, outcome in Hp, Hv. rewrite bind_run in Hp.
    destruct (get_cached_token w) as [[v'|e] w1]; simpl in Hv, Hp; [|discriminate].
    inversion Hv; subst v'.
    destruct (truthy v); simpl in Hp; [|discriminate].
    now inversion Hp. }
  rewrite Hs in Hn, Hw. now apply encoded_token_loads.
Qed.

(** While the explicit token decodes, a token persisted later is not the
    one loaded: the explicit token still is. *)
Theorem explicit_token_shadows_update (w : world) (old tok : json) :
  PyStr.nonempty (RING_TOKEN w) = true ->
  decode_env_token (RING_TOKEN w) = Ret old ->
  outcome get_cached_token (final (token_updated tok) w) = Ret old.
Proof.
  intros Hn Hd.
  destruct (token_updated_run tok w) as (_ & He & _).
  rewrite get_cached_token_outcome, He, Hn, Hd. reflexivity.
Qed.

(** When the write of the file fails, the token persisted is kept in
    [_latest_token_b64] only, and loading does not read it. If the write
    failed before the file was opened, the next load returns what it
    returned before. If it failed after the file was emptied and what is
    left does not parse, the next load returns none, in a process whose
    explicit token is not set or does not decode. *)
Theorem failed_write_is_not_loaded (w : world) (tok : json) (f : write_failure) :
  write_error w = Some f ->
  _latest_token_b64 (final (token_updated tok) w) =
    Some (b64encode (json_dumps tok))
  /\ (forall e,
         f = OpenFails e ->
         outcome get_cached_token (final (token_updated tok) w) =
         outcome get_cached_token w)
  /\ (forall e written e',
         f = WriteFails e written ->
         explicit_unusable w ->
         json_loads (String.substring 0 written (json_dumps tok)) = Raise e' ->
         outcome get_cached_token (final (token_updated tok) w) = Ret JNull).
Proof.
  intros He.
  destruct (token_updated_run tok w) as (_ & Hr & Hf & Hl & _).
  rewrite He in Hf. split; [exact Hl|]. split.
  - intros e ->. simpl in Hf.
    rewrite !get_cached_token_outcome, Hr, Hf. reflexivity.
  - intros e written e' -> Hx Hj. simpl in Hf.
    rewrite get_cached_token_outcome, Hr, Hf, Hj.
    destruct Hx as [E | [e0 E]]; rewrite E; simpl.
    + reflexivity.
    + destruct (PyStr.nonempty (RING_TOKEN w)); reflexivity.
Qed.

(** A token persisted with a write that succeeds is the token loaded next,
    in a process whose explicit token is not set or does not decode. *)
Theorem persisted_token_is_loaded (w : world) (tok : json) :
  write_error w = None ->
  explicit_unusable w ->
  json_loads (json_dumps tok) = Ret tok ->
  outcome get_cached_token (final (token_updated tok) w) = Ret tok.
Proof.
  intros Hw Hx Hj.
  destruct (token_updated_run tok w) as (_ & Hr & Hf & _).
  rewrite Hw in Hf.
  rewrite get_cached_token_outcome, Hr, Hf, Hj.
  destruct Hx as [E | [e E]]; rewrite E; simpl.
  - reflexivity.
  - destruct (PyStr.nonempty (RING_TOKEN w)); reflexivity.
Qed.

End StoreFacts.

(** ** The resolver on every candidate list *)

Section ResolverMoreFacts.

Lemma find_some_in {A} (p : A -> bool) (l : list A) (d : A) :
  find p l = Some d -> In d l /\ p d = true.
Proof. apply find_some. Qed.

Lemma find_none_iff {A} (p : A -> bool) (l : list A) :
  find p l = None <-> forall x, In x l -> p x = false.
Proof.
  split; [apply find_none | apply find_none_all].
Qed.

(** The resolver only returns a candidate, and one that passed a test: it
    has the configured name, or it is an explicit intercom, or its family is
    other. *)
Theorem resolver_returns_a_matching_candidate
    (target : string) (all_devices : list device) (d : device) :
  select_intercom target all_devices = Some d ->
  In d all_devices
  /\ ((PyStr.nonempty target = true /\ name_matches target d = true)
      \/ is_intercom d = true \/ is_other d = true).
Proof.
  rewrite select_intercom_searches.
  destruct (PyStr.nonempty target) eqn:Hn.
  - destruct (find (name_matches target) all_devices) as [x|] eqn:F.
    + intros E. inversion E; subst x. apply find_some_in in F. intuition.
    + destruct (find is_intercom all_devices) as [x|] eqn:I.
      * intros E. inversion E; subst x. apply find_some_in in I. intuition.
      * intros E. apply find_some_in in E. intuition.
  - destruct (find is_intercom all_devices) as [x|] eqn:I.
    + intros E. inversion E; subst x. apply find_some_in in I. intuition.
    + intros E. apply find_some_in in E. intuition.
Qed.

(** The resolver returns none exactly when no candidate passes any test. *)
Theorem resolver_none_iff_nothing_matches
    (target : string) (all_devices : list device) :
  select_intercom target all_devices = None <->
  forall d, In d all_devices ->
    (PyStr.nonempty target = true -> name_matches target d = false)
    /\ is_intercom d = false /\ is_other d = false.
Proof.
  rewrite select_intercom_searches. split.
  - intros E d Hd.
    assert (Hname : PyStr.nonempty target = true -> name_matches target d = false).
    { intros Hn. rewrite Hn in E.
      destruct (find (name_matches target) all_devices) eqn:F; [discriminate|].
      exact (proj1 (find_none_iff _ _) F d Hd). }
    assert (Hrest : match find is_intercom all_devices with
                    | Some x => Some x
                    | None => find is_other all_devices
                    end = None).
    { destruct (if PyStr.nonempty target
                then find (name_matches target) all_devices else None);
        [discriminate | exact E]. }
    destruct (find is_intercom all_devices) eqn:I; [discriminate|].
    repeat split; [exact Hname | |].
    + exact (proj1 (find_none_iff _ _) I d Hd).
    + exact (proj1 (find_none_iff _ _) Hrest d Hd).
  - intros Hall.
    assert (I : find is_intercom all_devices = None).
    { apply find_none_iff. intros x Hx. apply (Hall x Hx). }
    assert (O : find is_other all_devices = None).
    { apply find_none_iff. intros x Hx. apply (Hall x Hx). }
    rewrite I, O.
    destruct (PyStr.nonempty target) eqn:Hn; [|reflexivity].
    assert (F : find (name_matches target) all_devices = None).
    { apply find_none_iff. intros x Hx. now apply (Hall x Hx). }
    rewrite F. reflexivity.
Qed.

(** When no candidate has the configured name, an explicit intercom is
    selected before a device of family other, wherever the two stand in the
    list. *)
Theorem intercom_wins_over_other_at_any_position
    (target : string) (all_devices : list device) (d : device) :
  (forall x, In x all_devices -> name_matches target x = false) ->
  In d all_devices ->
  is_intercom d = true ->
  exists chosen,
    select_intercom target all_devices = Some chosen
    /\ is_intercom chosen = true.
Proof.
  intros Hname Hd Hi. rewrite select_intercom_searches.
  rewrite (find_none_all _ _ Hname).
  destruct (find is_intercom all_devices) as [x|] eqn:I.
  - exists x. apply find_some_in in I.
    destruct (PyStr.nonempty target); intuition.
  - rewrite (proj1 (find_none_iff _ _) I d Hd) in Hi. discriminate.
Qed.

(** The candidates: the combined listing alone when the session has one,
    the groups being ignored; otherwise every device of every group. *)
Theorem candidates_of_the_session (devices : RingDevices) :
  (forall combined, devices_combined devices = Some combined ->
                    collect_devices devices = combined)
  /\ (devices_combined devices = None ->
      forall d, In d (collect_devices devices) <->
                exists group,
                  In (Some group) [other devices; doorbots devices;
                                   stickup_cams devices; chimes devices;
                                   video_doorbells devices]
                  /\ In d group).
Proof.
  unfold collect_devices. split.
  - intros combined ->. reflexivity.
  - intros ->. intros d.
    destruct devices as [o b s c v k]; simpl. unfold extend_if_has.
    destruct o as [o|], b as [b|], s as [s|], c as [c|], v as [v|]; simpl;
      rewrite ?in_app_iff; simpl;
      (split;
       [ intros Hd; repeat destruct Hd as [Hd | Hd]; try contradiction;
         eexists; (split; [|exact Hd]); simpl; tauto
       | intros [g [Hg Hd]];
         repeat destruct Hg as [Hg | Hg]; try contradiction; try discriminate;
         inversion Hg; subst; tauto ]).
Qed.

End ResolverMoreFacts.

(** ** The unlock operation, past the claims *)

Section UnlockMoreFacts.

Context `{PyLib}.
Variable cloud : provider.
Variable INTERCOM_NAME : string.

(** Acquiring the session opens no door. *)
Lemma get_ring_client_opens (w : world) :
  opens (final (get_ring_client cloud) w) = opens w.
Proof.
  destruct (get_cached_token_run w) as (v & w1 & G & Hc & _).
  unfold get_ring_client, async_create_session, async_update_data.
  unfold final, bind. rewrite G.
  assert (Ho : opens w1 = opens w) by (unfold opens; now rewrite Hc).
  rewrite <- Ho. clear Ho Hc G.
  destruct w1 as [env dd file we latest out cs].
  destruct (truthy v); [|reflexivity].
  run.
  destruct (create_session_result cloud v) as [[]|e]; simpl.
  - destruct (update_data_result cloud v) as [[]|e]; simpl.
    + count_opens.
    + destruct (is_AuthenticationError e); simpl; count_opens.
  - destruct (is_AuthenticationError e); simpl; count_opens.
Qed.

(** A run of [unlock_door_async] with a session, by the device resolved and
    the outcomes of the calls. *)
Lemma unlock_with_session (w w1 : world) (ring : Ring) (auth : Auth) :
  get_ring_client cloud w = (Ret (Some ring, Some auth), w1) ->
  let selected :=
    select_intercom INTERCOM_NAME (collect_devices (devices_result cloud)) in
  let result : bool * string :=
    match selected with
    | None =>
        (false, "No intercom found. Available devices: "
                  ++ PyStr.repr_list (device_list (devices_result cloud)))
    | Some d =>
        match open_door_result cloud d with
        | Ret _ =>
            match name d with
            | Some n => (true, "Door unlocked via " ++ n ++ "!")
            | None =>
                (false, "Error unlocking door: '" ++ cls_name d
                          ++ "' object has no attribute 'name'")
            end
        | Raise e => (false, "Error unlocking door: " ++ str_exn e)
        end
    end in
  outcome (unlock_door_async cloud INTERCOM_NAME) w =
    match close_result cloud with
    | Ret _ => Ret result
    | Raise e => Raise e
    end
  /\ opens (final (unlock_door_async cloud INTERCOM_NAME) w) =
     opens w1 + match selected with Some _ => 1 | None => 0 end
  /\ closes (final (unlock_door_async cloud INTERCOM_NAME) w) = S (closes w1).
Proof.
  intros G selected result. subst selected result.
  unfold unlock_door_async, outcome, final. rewrite bind_run, G.
  unfold find_intercom, ring_devices, async_open_door, async_close, get_name.
  destruct w1 as [env dd file we latest out cs]. run.
  destruct (select_intercom INTERCOM_NAME
              (collect_devices (devices_result cloud))) as [d|]; simpl.
  - destruct (open_door_result cloud d) as [[]|e]; simpl.
    + destruct (name d); simpl;
        destruct (close_result cloud) as [[]|e']; simpl;
        (repeat split; [count_opens | count_closes]).
    + destruct (close_result cloud) as [[]|e']; simpl;
        (repeat split; [count_opens | count_closes]).
  - destruct (close_result cloud) as [[]|e']; simpl;
      (repeat split; [count_opens | count_closes]).
Qed.

(** A run of [unlock_door_async] without a session. *)
Lemma unlock_without_session (w w1 : world) :
  get_ring_client cloud w = (Ret (None, None), w1) ->
  unlock_door_async cloud INTERCOM_NAME w =
  (Ret (false, "Not authenticated. Please visit /setup to authenticate."), w1).
Proof.
  intros G. unfold unlock_door_async. rewrite bind_run, G. reflexivity.
Qed.

(** The three ways [get_ring_client] ends, with the state it ends in. *)
Lemma get_ring_client_ends (w : world) :
  (exists w1, get_ring_client cloud w = (Ret (None, None), w1))
  \/ (exists ring auth w1,
         get_ring_client cloud w = (Ret (Some ring, Some auth), w1))
  \/ (exists e w1, get_ring_client cloud w = (Raise e, w1)).
Proof.
  destruct (get_ring_client_cases cloud w) as [E | [[ring [auth E]] | [e [E _]]]];
    unfold outcome in E;
    destruct (get_ring_client cloud w) as [r w1]; simpl in E; subst r; eauto 6.
Qed.

(** One call of [unlock_door_async] asks at most one door to open, and none
    when no device is resolved. *)
Theorem at_most_one_actuation (w : world) :
  opens (final (unlock_door_async cloud INTERCOM_NAME) w) <= S (opens w)
  /\ (select_intercom INTERCOM_NAME (collect_devices (devices_result cloud)) = None ->
      opens (final (unlock_door_async cloud INTERCOM_NAME) w) = opens w).
Proof.
  pose proof (get_ring_client_opens w) as Ho. unfold final in Ho.
  destruct (get_ring_client_ends w) as [[w1 G] | [[ring [auth [w1 G]]] | [e [w1 G]]]];
    rewrite G in Ho; simpl in Ho.
  - unfold final. rewrite (unlock_without_session w w1 G). simpl.
    rewrite Ho. split; [lia | reflexivity].
  - destruct (unlock_with_session w w1 ring auth G) as (_ & Hopen & _).
    rewrite Hopen, Ho. split.
    + destruct (select_intercom _ _); lia.
    + intros ->. lia.
  - unfold unlock_door_async, final. rewrite bind_run, G. simpl.
    rewrite Ho. split; [lia | reflexivity].
Qed.

(** A result with [success] true means that a device was resolved, that the
    call that opens its door returned, and that the session was released;
    the message names that device. *)
Theorem success_means_door_opened (w : world) (message : string) :
  outcome (unlock_door_async cloud INTERCOM_NAME) w = Ret (true, message) ->
  exists d n,
    select_intercom INTERCOM_NAME (collect_devices (devices_result cloud)) = Some d
    /\ open_door_result cloud d = Ret tt
    /\ name d = Some n
    /\ message = "Door unlocked via " ++ n ++ "!"
    /\ close_result cloud = Ret tt
    /\ opens (final (unlock_door_async cloud INTERCOM_NAME) w) = S (opens w).
Proof.
  intros E.
  pose proof (get_ring_client_opens w) as Ho. unfold final in Ho.
  destruct (get_ring_client_ends w) as [[w1 G] | [[ring [auth [w1 G]]] | [e [w1 G]]]];
    rewrite G in Ho; simpl in Ho.
  - unfold outcome in E. rewrite (unlock_without_session w w1 G) in E.
    discriminate.
  - destruct (unlock_with_session w w1 ring auth G) as (Hout & Hopen & _).
    rewrite Hout in E. rewrite Hopen, Ho. clear Hout Hopen.
    destruct (close_result cloud) as [[]|e'] eqn:C; [|discriminate].
    destruct (select_intercom INTERCOM_NAME
                (collect_devices (devices_result cloud))) as [d|] eqn:S;
      [|discriminate].
    destruct (open_door_result cloud d) as [[]|e] eqn:O; [|discriminate].
    destruct (name d) as [n|] eqn:N; [|discriminate].
    inversion E. exists d, n. repeat split; try reflexivity; try assumption. lia.
  - unfold unlock_door_async, outcome in E. rewrite bind_run, G in E. discriminate.
Qed.

(** A device resolved that has no name: its door is opened, and the result
    is a failure, for the message cannot be made. *)
Theorem nameless_device_opens_and_fails
    (w : world) (ring : Ring) (auth : Auth) (d : device) :
  outcome (get_ring_client cloud) w = Ret (Some ring, Some auth) ->
  select_intercom INTERCOM_NAME (collect_devices (devices_result cloud)) = Some d ->
  name d = None ->
  open_door_result cloud d = Ret tt ->
  close_result cloud = Ret tt ->
  outcome (unlock_door_async cloud INTERCOM_NAME) w =
    Ret (false, "Error unlocking door: '" ++ cls_name d
                  ++ "' object has no attribute 'name'")
  /\ opens (final (unlock_door_async cloud INTERCOM_NAME) w) = S (opens w).
Proof.
  intros Hs Hd Hn Ho Hc.
  pose proof (get_ring_client_opens w) as Hop. unfold final in Hop.
  unfold outcome in Hs.
  destruct (get_ring_client cloud w) as [r w1] eqn:G. simpl in Hs, Hop. subst r.
  destruct (unlock_with_session w w1 ring auth G) as (Hout & Hopen & _).
  rewrite Hout, Hopen, Hd, Ho, Hn, Hc, Hop. split; [reflexivity | lia].
Qed.

(** With a combined listing that is not empty and no device resolved, the
    failure lists every candidate, in order, as name and family. *)
Theorem diagnostic_lists_combined_candidates
    (w : world) (ring : Ring) (auth : Auth) (d : device) (l : list device) :
  outcome (get_ring_client cloud) w = Ret (Some ring, Some auth) ->
  devices_combined (devices_result cloud) = Some (d :: l) ->
  select_intercom INTERCOM_NAME (collect_devices (devices_result cloud)) = None ->
  close_result cloud = Ret tt ->
  outcome (unlock_door_async cloud INTERCOM_NAME) w =
  Ret (false, "No intercom found. Available devices: "
                ++ PyStr.repr_list
                     (map describe (collect_devices (devices_result cloud)))).
Proof.
  intros Hs Hk Hd Hc.
  unfold outcome in Hs.
  destruct (get_ring_client cloud w) as [r w1] eqn:G. simpl in Hs. subst r.
  destruct (unlock_with_session w w1 ring auth G) as (Hout & _).
  rewrite Hout, Hd, Hc. unfold device_list.
  rewrite (listed_devices_combined _ d l Hk). reflexivity.
Qed.

(** Without a value that Python takes for true, no session is asked for. *)
Lemma unlock_on_falsy_token (w : world) (v : json) :
  outcome get_cached_token w = Ret v ->
  truthy v = false ->
  outcome (unlock_door_async cloud INTERCOM_NAME) w =
    Ret (false, "Not authenticated. Please visit /setup to authenticate.")
  /\ calls (final (unlock_door_async cloud INTERCOM_NAME) w) = calls w.
Proof.
  intros Hv Ht.
  destruct (get_cached_token_run w) as (v' & w1 & G & Hc & Hv').
  rewrite Hv in Hv'. inversion Hv'; subst v'.
  assert (Hg : get_ring_client cloud w = (Ret (None, None), w1)).
  { unfold get_ring_client. rewrite bind_run, G, Ht. reflexivity. }
  unfold outcome, final.
  rewrite (unlock_without_session w w1 Hg). simpl. auto.
Qed.

(** A stored value that Python takes for false (none, an empty object, an
    empty string, zero) is no token for [unlock_door_async]: it asks to
    authenticate and calls the vendor for nothing, and [/get-token] shows
    the page that says no token is stored. *)
Theorem falsy_token_is_no_token (w : world) (v : json) :
  outcome get_cached_token w = Ret v ->
  truthy v = false ->
  outcome (unlock_door_async cloud INTERCOM_NAME) w =
    Ret (false, "Not authenticated. Please visit /setup to authenticate.")
  /\ calls (final (unlock_door_async cloud INTERCOM_NAME) w) = calls w
  /\ outcome get_token w = Ret NoTokenPage.
Proof.
  intros Hv Ht.
  destruct (unlock_on_falsy_token w v Hv Ht) as [Hu Hc].
  repeat split; [exact Hu | exact Hc |].
  unfold get_token, outcome in *. rewrite bind_run.
  destruct (get_cached_token w) as [r w1]. simpl in Hv. subst r.
  rewrite Ht. reflexivity.
Qed.

(** [/health], [/] and [/setup] never call the vendor, and report as
    authenticated exactly a stored value that is not none. So with a stored
    empty object they report the account as connected, [/setup] showing no
    login form, while [unlock_door_async] asks to authenticate. *)
Theorem health_counts_any_stored_value
    (w : world) (v : json) (url_root RING_USERNAME : string) :
  outcome get_cached_token w = Ret v ->
  (calls (final health w) = calls w
   /\ calls (final (home url_root) w) = calls w
   /\ calls (final (setup_page RING_USERNAME) w) = calls w)
  /\ (v = JNull ->
      outcome health w =
        Ret (JsonResponse 200 [("status", JStr "healthy");
                               ("authenticated", JBool false)])
      /\ outcome (home url_root) w = Ret (HomePage false url_root)
      /\ outcome (setup_page RING_USERNAME) w =
         Ret (SetupPage false RING_USERNAME))
  /\ (v <> JNull ->
      outcome health w =
        Ret (JsonResponse 200 [("status", JStr "healthy");
                               ("authenticated", JBool true)])
      /\ outcome (home url_root) w = Ret (HomePage true url_root)
      /\ outcome (setup_page RING_USERNAME) w =
         Ret (SetupPage true RING_USERNAME)
      /\ (truthy v = false ->
          outcome (unlock_door_async cloud INTERCOM_NAME) w =
          Ret (false, "Not authenticated. Please visit /setup to authenticate."))).
Proof.
  intros Hv.
  destruct (get_cached_token_run w) as (v' & w1 & G & Hc & Hv').
  rewrite Hv in Hv'. inversion Hv'; subst v'.
  unfold health, home, setup_page, outcome, final. rewrite !bind_run, G. simpl.
  split; [auto|]. split.
  - intros ->. simpl. auto.
  - intros Hn.
    assert (Ht : is_not_None v = true)
      by (destruct v; try reflexivity; contradiction).
    rewrite Ht. repeat split.
    intros Hf. apply (unlock_on_falsy_token w v Hv Hf).
Qed.

End UnlockMoreFacts.

(** ** The two stages of the login *)

Section LoginMoreFacts.

Context `{PyLib}.
Variable cloud : provider.

(** The first stage makes one call, the authentication without a code, and
    never raises. When the call returns, the page is the one of success and
    the token is kept encoded in [_latest_token_b64], no session having
    been opened to check it. When it raises [Requires2FAError], the page
    asks for the code and carries the user name and the password, and the
    token store is as before. Any other exception gives the page of failure
    with its text, and the token store is as before. *)
Theorem first_stage_outcomes (w : world) (username password : string) :
  let run := setup_authenticate cloud username password in
  calls (final run w) = (calls w ++ [CallFetchToken username password None])%list
  /\ match fetch_token_result cloud username password None with
     | Ret tok =>
         outcome run w = Ret AuthSuccessPage
         /\ _latest_token_b64 (final run w) = Some (b64encode (json_dumps tok))
     | Raise e =>
         outcome run w =
           Ret (if is_Requires2FAError e then TwoFactorPage username password
                else AuthFailedPage (DataStr (str_exn e)))
         /\ same_store w (final run w)
     end.
Proof.
  intros run. subst run.
  unfold setup_authenticate, do_auth, async_fetch_token, same_store.
  destruct w as [env dd file we latest out cs].
  unfold outcome, final, try_except, log_call, lift, ret, bind. simpl.
  destruct (fetch_token_result cloud username password None) as [tok|e]; simpl.
  - destruct (token_updated_run tok
                (World env dd file we latest out
                   (cs ++ [CallFetchToken username password None])))
      as (Ho & _ & _ & Hl & Hc).
    unfold outcome, final in Ho, Hl, Hc.
    destruct (token_updated tok _) as [r w2]. simpl in Ho, Hl, Hc. subst r.
    simpl. auto.
  - destruct (is_Requires2FAError e); simpl; auto.
Qed.

(** What the second stage leaves in the token store once the code was
    accepted, whatever comes of the session that checks the token. *)
Lemma second_stage_store (w : world) (username password code : string) (tok : json) :
  fetch_token_result cloud username password (Some code) = Ret tok ->
  let w' := final (setup_verify_2fa cloud username password code) w in
  RING_TOKEN w' = RING_TOKEN w
  /\ _latest_token_b64 w' = Some (b64encode (json_dumps tok))
  /\ token_file w' =
     match write_error w with
     | None => Some (json_dumps tok)
     | Some f => file_after_failure f (token_file w) (json_dumps tok)
     end.
Proof.
  intros F w'. subst w'.
  unfold setup_verify_2fa, verify_2fa, async_fetch_token, async_create_session,
    async_update_data, async_close.
  destruct w as [env dd file we latest out cs].
  unfold outcome, final, try_except, log_call, lift, ret, bind. simpl.
  rewrite F. simpl.
  destruct (token_updated_run tok
              (World env dd file we latest out
                 (cs ++ [CallFetchToken username password (Some code)])))
    as (Ho & Hr & Hf & Hl & _).
  unfold outcome, final in Ho, Hr, Hf, Hl. simpl in Hr, Hf.
  destruct (token_updated tok _) as [r w2]. simpl in Ho, Hr, Hf, Hl. subst r.
  simpl.
  destruct (create_session_result cloud tok) as [[]|e]; simpl; [|auto].
  destruct (update_data_result cloud tok) as [[]|e]; simpl; [|auto].
  destruct (close_result cloud) as [[]|e]; simpl; auto.
Qed.

(** After the page of success of the second stage, the page shows the
    token that was fetched, encoded, and that token is what the next load
    returns, in a process whose explicit token is not set or does not decode
    and whose file can be written. *)
Theorem verified_login_is_loaded
    (w : world) (username password code : string) (tok : json)
    (shown : option string) :
  fetch_token_result cloud username password (Some code) = Ret tok ->
  outcome (setup_verify_2fa cloud username password code) w =
    Ret (SuccessPage shown) ->
  write_error w = None ->
  explicit_unusable w ->
  json_loads (json_dumps tok) = Ret tok ->
  shown = Some (b64encode (json_dumps tok))
  /\ outcome get_cached_token
       (final (setup_verify_2fa cloud username password code) w) = Ret tok.
Proof.
  intros F S Hw Hx Hj.
  destruct (second_stage_store w username password code tok F) as (Hr & Hl & Hf).
  rewrite Hw in Hf. split.
  - unfold setup_verify_2fa, outcome, final in S, Hl. rewrite bind_run in S, Hl.
    destruct (verify_2fa cloud username password code w) as [[[[] err]|e] w1];
      simpl in S, Hl; try discriminate.
    inversion S. exact Hl.
  - rewrite get_cached_token_outcome, Hr, Hf, Hj.
    destruct Hx as [E | [e E]]; rewrite E; simpl.
    + reflexivity.
    + destruct (PyStr.nonempty (RING_TOKEN w)); reflexivity.
Qed.

(** The token is persisted when the code is accepted, before the session
    that checks it: when that session cannot be opened, the page is the one
    of failure, and the token is in [_latest_token_b64] and in the file all
    the same. *)
Theorem unverified_token_is_persisted
    (w : world) (username password code : string) (tok : json) (e : exn) :
  fetch_token_result cloud username password (Some code) = Ret tok ->
  create_session_result cloud tok = Raise e ->
  write_error w = None ->
  let run := setup_verify_2fa cloud username password code in
  outcome run w = Ret (VerificationFailedPage (Some (str_exn e)))
  /\ _latest_token_b64 (final run w) = Some (b64encode (json_dumps tok))
  /\ token_file (final run w) = Some (json_dumps tok).
Proof.
  intros F C Hw run. subst run.
  destruct (second_stage_store w username password code tok F) as (_ & Hl & Hf).
  rewrite Hw in Hf. split; [|split; assumption].
  clear Hl Hf.
  unfold setup_verify_2fa, verify_2fa, async_fetch_token, async_create_session.
  destruct w as [env dd file we latest out cs].
  unfold outcome, try_except, log_call, lift, ret, bind. simpl.
  rewrite F. simpl.
  destruct (token_updated_run tok
              (World env dd file we latest out
                 (cs ++ [CallFetchToken username password (Some code)])))
    as (Ho & _).
  unfold outcome in Ho.
  destruct (token_updated tok _) as [r w2]. simpl in Ho. subst r.
  simpl. rewrite C. reflexivity.
Qed.

End LoginMoreFacts.

(** ** The further properties on concrete runs *)

Lemma unconfigured_key_refuses_all_witness :
  require_api_key "" Scenarios.open_front_door Scenarios.blank_request
    Examples.file_world =
  (Ret (Refused (JsonResponse 500
                   [("error", JStr "Server not configured - API_KEY not set")])),
   Examples.file_world).
Proof.
  apply (unconfigured_key_refuses_all "" Scenarios.open_front_door
           Scenarios.blank_request Examples.file_world).
  reflexivity.
Defined.

Lemma header_key_decides_before_query_key_witness :
  require_api_key "s3cret" Scenarios.open_front_door Scenarios.mixed_request
    Examples.file_world =
  (Ret (Refused (JsonResponse 401 [("error", JStr "Invalid or missing API key")])),
   Examples.file_world).
Proof.
  destruct (header_key_decides_before_query_key "s3cret" Scenarios.open_front_door
              Scenarios.mixed_request Examples.file_world eq_refl) as [Hheader _].
  exact (Hheader "wrong" eq_refl eq_refl).
Defined.

Lemma latest_token_restores_login_witness :
  outcome (get_cached_token (H := PyRef.python)) Scenarios.restarted_world =
  Ret Examples.stored_token.
Proof.
  apply (latest_token_restores_login (H := PyRef.python)
           Scenarios.readonly_empty_world Scenarios.restarted_world
           Examples.stored_token); vm_compute; reflexivity.
Defined.

Lemma shown_token_restores_login_witness :
  outcome (get_cached_token (H := PyRef.python)) Scenarios.restarted_world =
  Ret Examples.stored_token.
Proof.
  apply (shown_token_restores_login (H := PyRef.python)
           Examples.file_world Scenarios.restarted_world Examples.stored_token
           (PyRef.encode (PyRef.dumps Examples.stored_token)));
    vm_compute; reflexivity.
Defined.

Lemma explicit_token_shadows_update_witness :
  outcome (get_cached_token (H := PyRef.python))
    (final (token_updated (H := PyRef.python) Examples.stored_token)
           Scenarios.stale_world) =
  Ret Examples.other_token.
Proof.
  apply (explicit_token_shadows_update (H := PyRef.python) Scenarios.stale_world
           Examples.other_token Examples.stored_token); vm_compute; reflexivity.
Defined.

Lemma failed_write_is_not_loaded_witness :
  _latest_token_b64
    (final (token_updated (H := PyRef.python) Examples.stored_token)
           Scenarios.full_disk_world) =
    Some (PyRef.encode (PyRef.dumps Examples.stored_token))
  /\ outcome (get_cached_token (H := PyRef.python))
       (final (token_updated (H := PyRef.python) Examples.stored_token)
              Scenarios.full_disk_world) = Ret JNull.
Proof.
  destruct (failed_write_is_not_loaded (H := PyRef.python)
              Scenarios.full_disk_world Examples.stored_token
              (WriteFails (Exn OtherException "[Errno 28] No space left on device") 0)
              eq_refl) as (Hlatest & _ & Hlost).
  split; [exact Hlatest|].
  apply (Hlost (Exn OtherException "[Errno 28] No space left on device") 0
               (PyRef.error "Expecting value") eq_refl).
  - left. reflexivity.
  - vm_compute. reflexivity.
Defined.

Lemma persisted_token_is_loaded_witness :
  outcome (get_cached_token (H := PyRef.python))
    (final (token_updated (H := PyRef.python) Examples.stored_token)
           Examples.empty_world) =
  Ret Examples.stored_token.
Proof.
  apply (persisted_token_is_loaded (H := PyRef.python) Examples.empty_world
           Examples.stored_token).
  - reflexivity.
  - left. reflexivity.
  - vm_compute. reflexivity.
Defined.

Lemma resolver_returns_a_matching_candidate_witness :
  In Examples.front_door Examples.candidates
  /\ ((PyStr.nonempty "" = true /\ name_matches "" Examples.front_door = true)
      \/ is_intercom Examples.front_door = true
      \/ is_other Examples.front_door = true).
Proof.
  apply (resolver_returns_a_matching_candidate "" Examples.candidates
           Examples.front_door).
  reflexivity.
Defined.

Lemma intercom_wins_over_other_at_any_position_witness :
  exists chosen,
    select_intercom "Garage" [Examples.front_door; Scenarios.intercom] = Some chosen
    /\ is_intercom chosen = true.
Proof.
  apply (intercom_wins_over_other_at_any_position "Garage"
           [Examples.front_door; Scenarios.intercom] Scenarios.intercom).
  - intros x [<- | [<- | []]]; reflexivity.
  - right. left. reflexivity.
  - reflexivity.
Defined.

Lemma success_means_door_opened_witness :
  exists d n,
    select_intercom "" (collect_devices (Examples.grouped Examples.candidates)) =
      Some d
    /\ open_door_result (Examples.healthy (Examples.grouped Examples.candidates)) d =
       Ret tt
    /\ name d = Some n
    /\ "Door unlocked via Front Door!" = "Door unlocked via " ++ n ++ "!"
    /\ close_result (Examples.healthy (Examples.grouped Examples.candidates)) = Ret tt
    /\ opens (final (unlock_door_async (H := PyRef.python)
                       (Examples.healthy (Examples.grouped Examples.candidates)) "")
                    Examples.file_world) =
       S (opens Examples.file_world).
Proof.
  apply (success_means_door_opened (H := PyRef.python)
           (Examples.healthy (Examples.grouped Examples.candidates)) ""
           Examples.file_world "Door unlocked via Front Door!").
  vm_compute. reflexivity.
Defined.

Lemma nameless_device_opens_and_fails_witness :
  outcome (unlock_door_async (H := PyRef.python)
             (Examples.healthy (Examples.grouped [Scenarios.nameless])) "")
          Examples.file_world =
    Ret (false, "Error unlocking door: 'RingOther' object has no attribute 'name'")
  /\ opens (final (unlock_door_async (H := PyRef.python)
                     (Examples.healthy (Examples.grouped [Scenarios.nameless])) "")
                  Examples.file_world) = 1.
Proof.
  apply (nameless_device_opens_and_fails (H := PyRef.python)
           (Examples.healthy (Examples.grouped [Scenarios.nameless])) ""
           Examples.file_world
           (MkRing (MkAuth USER_AGENT Examples.stored_token))
           (MkAuth USER_AGENT Examples.stored_token) Scenarios.nameless);
    vm_compute; reflexivity.
Defined.

Lemma diagnostic_lists_combined_candidates_witness :
  outcome (unlock_door_async (H := PyRef.python)
             (Examples.healthy (Examples.grouped [Examples.chime; Examples.doorbell])) "")
          Examples.file_world =
  Ret (false,
       "No intercom found. Available devices: ['Chime (chime)', 'Porch (doorbots)']").
Proof.
  apply (diagnostic_lists_combined_candidates (H := PyRef.python)
           (Examples.healthy (Examples.grouped [Examples.chime; Examples.doorbell])) ""
           Examples.file_world
           (MkRing (MkAuth USER_AGENT Examples.stored_token))
           (MkAuth USER_AGENT Examples.stored_token)
           Examples.chime [Examples.doorbell]);
    vm_compute; reflexivity.
Defined.

Lemma falsy_token_is_no_token_witness :
  outcome (unlock_door_async (H := PyRef.python)
             (Examples.healthy (Examples.grouped Examples.candidates)) "")
          Scenarios.hollow_world =
    Ret (false, "Not authenticated. Please visit /setup to authenticate.")
  /\ calls (final (unlock_door_async (H := PyRef.python)
                     (Examples.healthy (Examples.grouped Examples.candidates)) "")
                  Scenarios.hollow_world) = calls Scenarios.hollow_world
  /\ outcome (get_token (H := PyRef.python)) Scenarios.hollow_world = Ret NoTokenPage.
Proof.
  apply (falsy_token_is_no_token (H := PyRef.python)
           (Examples.healthy (Examples.grouped Examples.candidates)) ""
           Scenarios.hollow_world (JDict []));
    vm_compute; reflexivity.
Defined.

Lemma health_counts_any_stored_value_witness :
  outcome (health (H := PyRef.python)) Scenarios.hollow_world =
    Ret (JsonResponse 200 [("status", JStr "healthy"); ("authenticated", JBool true)])
  /\ outcome (setup_page (H := PyRef.python) "") Scenarios.hollow_world =
     Ret (SetupPage true "")
  /\ outcome (unlock_door_async (H := PyRef.python)
                (Examples.healthy (Examples.grouped Examples.candidates)) "")
             Scenarios.hollow_world =
     Ret (false, "Not authenticated. Please visit /setup to authenticate.").
Proof.
  destruct (health_counts_any_stored_value (H := PyRef.python)
              (Examples.healthy (Examples.grouped Examples.candidates)) ""
              Scenarios.hollow_world (JDict []) "https://door.example/" "")
    as (_ & _ & Hstored).
  - vm_compute. reflexivity.
  - destruct Hstored as (Hh & _ & Hs & Hu); [discriminate|].
    split; [exact Hh | split; [exact Hs | exact (Hu eq_refl)]].
Defined.

Lemma verified_login_is_loaded_witness :
  Some (PyRef.encode (PyRef.dumps Examples.stored_token)) =
  Some (PyRef.encode (PyRef.dumps Examples.stored_token))
  /\ outcome (get_cached_token (H := PyRef.python))
       (final (setup_verify_2fa (H := PyRef.python) Scenarios.needs_code
                 "user" "secret" "123456")
              Examples.empty_world) =
     Ret Examples.stored_token.
Proof.
  apply (verified_login_is_loaded (H := PyRef.python) Scenarios.needs_code
           Examples.empty_world "user" "secret" "123456" Examples.stored_token
           (Some (PyRef.encode (PyRef.dumps Examples.stored_token)))).
  - reflexivity.
  - vm_compute. reflexivity.
  - reflexivity.
  - left. reflexivity.
  - vm_compute. reflexivity.
Defined.

Lemma unverified_token_is_persisted_witness :
  outcome (setup_verify_2fa (H := PyRef.python) Scenarios.accepted_then_down
             "user" "secret" "123456")
          Examples.empty_world =
    Ret (VerificationFailedPage (Some "Cannot connect to host"))
  /\ _latest_token_b64
       (final (setup_verify_2fa (H := PyRef.python) Scenarios.accepted_then_down
                 "user" "secret" "123456")
              Examples.empty_world) =
     Some (PyRef.encode (PyRef.dumps Examples.stored_token))
  /\ token_file
       (final (setup_verify_2fa (H := PyRef.python) Scenarios.accepted_then_down
                 "user" "secret" "123456")
              Examples.empty_world) =
     Some (PyRef.dumps Examples.stored_token).
Proof.
  apply (unverified_token_is_persisted (H := PyRef.python)
           Scenarios.accepted_then_down Examples.empty_world
           "user" "secret" "123456" Examples.stored_token
           (Exn OtherException "Cannot connect to host")); reflexivity.
Defined.
